(** * Brownstone IFC generator: a shallow embedding and its properties

    The development follows [brownstone-ifc-generator.py].  Numbers are
    Python floats, that is IEEE 754 binary64, and are modelled by Rocq's
    primitive floats, so every definition below evaluates to the value the
    script computes.  The [model] object the script mutates is threaded
    explicitly through a small state-and-exception monad. *)

From Stdlib Require Import List String Ascii ZArith Floats Bool Arith Lia.
From Stdlib Require Import Permutation DecimalString Uint63.
Import ListNotations.

Set Warnings "-inexact-float".
Set Implicit Arguments.

Open Scope string_scope.
Open Scope list_scope.

(* ================================================================== *)
(** ** Python values *)

Module Py.

(** The built-in exceptions the generator can raise. *)
Inductive Error : Type :=
| OverflowError
| IndexError
| KeyError
| UnboundLocalError.

Inductive Result (A : Type) : Type :=
| Ok (a : A)
| Raise (e : Error).
Arguments Ok {A} a.
Arguments Raise {A} e.

(** [str(n)] for a non-negative integer. *)
Definition str (n : nat) : string := NilEmpty.string_of_uint (Nat.to_uint n).

(** Conversion of a small non-negative [int] operand in mixed
    [float * int] arithmetic. *)
Definition float_of_nat (n : nat) : float :=
  PrimFloat.of_uint63 (Uint63.of_Z (Z.of_nat n)).

(** [x ** 2] on a float.  CPython computes [pow(x, 2.0)] and raises
    [OverflowError] when a finite base gives an infinite result; the
    result of an underflow is [0.0].  The square itself is taken as the
    correctly rounded product. *)
Definition pow2 (x : float) : Result float :=
  let r := (x * x)%float in
  if PrimFloat.is_finite x && PrimFloat.is_infinity r
  then Raise OverflowError
  else Ok r.

(** [l[i]] for [0 <= i]. *)
Definition index {A : Type} (l : list A) (i : nat) : Result A :=
  match nth_error l i with
  | Some a => Ok a
  | None => Raise IndexError
  end.

(** [l[-1]]. *)
Definition last_item {A : Type} (l : list A) : Result A :=
  match rev l with
  | a :: _ => Ok a
  | [] => Raise IndexError
  end.

(** [d[k]] for a dict with integer keys, written as an association list. *)
Fixpoint getitem {A : Type} (d : list (nat * A)) (k : nat) : Result A :=
  match d with
  | [] => Raise KeyError
  | (k', v) :: d' => if Nat.eqb k k' then Ok v else getitem d' k
  end.

(** [enumerate(l)], counting from [k]. *)
Fixpoint enumerate_from {A : Type} (k : nat) (l : list A) : list (nat * A) :=
  match l with
  | [] => []
  | x :: l' => (k, x) :: enumerate_from (S k) l'
  end.

Definition enumerate {A : Type} (l : list A) : list (nat * A) :=
  enumerate_from 0 l.

(** [range(a, b)]. *)
Definition range (a b : nat) : list nat := seq a (b - a).

End Py.

Import Py.

(* ================================================================== *)
(** ** The IFC entities the generator creates *)

Definition Guid := string.

Definition Point2 : Type := float * float.
Definition Point3 : Type := float * float * float.

(** [IfcLocalPlacement(None, IfcAxis2Placement3D(location, axis, ref))]. *)
Record Placement : Type := mkPlacement {
  Location : Point3;
  Axis : Point3;
  RefDirection : Point3
}.

(** The product definition shape every element gets: one "Body" /
    "SweptSolid" representation holding one [IfcExtrudedAreaSolid] over an
    [IfcArbitraryClosedProfileDef] whose outer curve is a polyline. *)
Record Solid : Type := mkSolid {
  Polyline : list Point2;
  ExtrudedDirection : Point3;
  Depth : float
}.

(** [IfcMaterialLayerSetUsage(IfcMaterialLayerSet([IfcMaterialLayer(
    IfcMaterial(name), thickness)]), "AXIS2", "POSITIVE", 0.0)]. *)
Record MaterialLayerSetUsage : Type := mkUsage {
  MaterialName : string;
  LayerThickness : float
}.

Inductive IfcClass : Type :=
| IfcProject
| IfcSite
| IfcBuilding
| IfcWallStandardCase
| IfcSlab
| IfcDoor
| IfcWindow
| IfcStair
| IfcSanitaryTerminal
| IfcUnitaryEquipment
| IfcElectricDistributionBoard
| IfcFlowTerminal.

(** Project, site and building. *)
Record Root : Type := mkRoot {
  r_handle : nat;
  r_GlobalId : Guid;
  r_class : IfcClass;
  r_Name : string;
  r_Description : string
}.

Record Storey : Type := mkStorey {
  s_handle : nat;
  s_GlobalId : Guid;
  s_Name : string;
  s_Description : string;
  s_Placement : Placement;
  Elevation : float
}.

(** A building element.  [handle] is the identity of the entity instance:
    the file hands out a fresh one for every rooted entity it creates. *)
Record Element : Type := mkElement {
  handle : nat;
  GlobalId : Guid;
  class : IfcClass;
  Name : string;
  Description : string;
  ObjectPlacement : Placement;
  Representation : Solid;
  PredefinedType : option string;
  OverallHeight : option float
}.

Record RelAggregates : Type := mkRelAggregates {
  ra_GlobalId : Guid;
  ra_Name : string;
  RelatingObject : nat;
  RelatedObjects : list nat
}.

(** [RelatedElements] is the Python list handed to the constructor; an
    item of it is an element or [None]. *)
Record RelContainedInSpatialStructure : Type := mkRelContained {
  rc_GlobalId : Guid;
  rc_Name : string;
  RelatedElements : list (option Element);
  RelatingStructure : Storey
}.

Record RelAssociatesMaterial : Type := mkRelMaterial {
  rm_GlobalId : Guid;
  rm_RelatedObjects : list Element;
  RelatingMaterial : MaterialLayerSetUsage
}.

(** The [ifcopenshell.file] under construction, together with the number
    of identifiers drawn so far from the run's [uuid4] generator. *)
Record IfcFile : Type := mkFile {
  next_handle : nat;
  uuid_calls : nat;
  roots : list Root;
  storey_entities : list Storey;
  elements : list Element;
  aggregates : list RelAggregates;
  containments : list RelContainedInSpatialStructure;
  material_associations : list RelAssociatesMaterial
}.

Definition empty_file : IfcFile := mkFile 0 0 [] [] [] [] [] [].

(* ================================================================== *)
(** ** The generator monad *)

Definition M (A : Type) : Type := IfcFile -> Result (A * IfcFile).

Definition ret {A : Type} (a : A) : M A := fun st => Ok (a, st).

Definition bind {A B : Type} (m : M A) (f : A -> M B) : M B :=
  fun st =>
    match m st with
    | Ok (a, st') => f a st'
    | Raise e => Raise e
    end.

Definition lift {A : Type} (r : Result A) : M A :=
  fun st =>
    match r with
    | Ok a => Ok (a, st)
    | Raise e => Raise e
    end.

Declare Scope gen_scope.
Delimit Scope gen_scope with gen.
Notation "x <- m ;; k" := (bind m (fun x => k))
  (at level 61, m at next level, right associativity) : gen_scope.
Notation "m ;; k" := (bind m (fun _ => k))
  (at level 61, right associativity) : gen_scope.
Open Scope gen_scope.

Fixpoint mapM {A B : Type} (f : A -> M B) (l : list A) : M (list B) :=
  match l with
  | [] => ret []
  | x :: l' => b <- f x ;; bs <- mapM f l' ;; ret (b :: bs)
  end.

(** What differs from one run to the next: the identifiers [uuid4] yields,
    in the order they are drawn. *)
Record Env : Type := mkEnv { uuid4 : nat -> Guid }.

(** The global parameters of the script, in feet. *)
Record Parameters : Type := mkParameters {
  BUILDING_WIDTH : float;
  BUILDING_DEPTH : float;
  BASEMENT_HEIGHT : float;
  FIRST_FLOOR_HEIGHT : float;
  SECOND_FLOOR_HEIGHT : float;
  THIRD_FLOOR_HEIGHT : float;
  FOURTH_FLOOR_HEIGHT : float;
  WALL_THICKNESS : float;
  FLOOR_THICKNESS : float;
  ROOF_THICKNESS : float
}.

(** The values the script assigns to them. *)
Definition globals : Parameters :=
  mkParameters 40.0 80.0 9.0 10.0 14.0 12.0 12.0 1.0 1.0 1.5.

Definition FOOT_TO_METER : float := 0.3048.
Definition INCH_TO_METER : float := 0.0254.

Definition convert_to_meter (feet : float) : float :=
  (feet * FOOT_TO_METER)%float.

(* ================================================================== *)
(** ** Operations of the file object *)

Section Generator.

(** The identifiers of this run and the parameter values in force. *)
Variable env : Env.
Variable P : Parameters.

(** [create_guid()]: the next identifier of the run. *)
Definition create_guid : M Guid :=
  fun st =>
    Ok (uuid4 env (uuid_calls st),
        mkFile (next_handle st) (S (uuid_calls st)) (roots st)
               (storey_entities st) (elements st) (aggregates st)
               (containments st) (material_associations st)).

Definition createIfcRoot (c : IfcClass) (g : Guid) (name desc : string)
  : M Root :=
  fun st =>
    let r := mkRoot (next_handle st) g c name desc in
    Ok (r,
        mkFile (S (next_handle st)) (uuid_calls st) (roots st ++ [r])
               (storey_entities st) (elements st) (aggregates st)
               (containments st) (material_associations st)).

Definition createIfcBuildingStorey (g : Guid) (name desc : string)
    (placement : Placement) (elevation : float) : M Storey :=
  fun st =>
    let s := mkStorey (next_handle st) g name desc placement elevation in
    Ok (s,
        mkFile (S (next_handle st)) (uuid_calls st) (roots st)
               (storey_entities st ++ [s]) (elements st) (aggregates st)
               (containments st) (material_associations st)).

Definition createIfcElement (c : IfcClass) (g : Guid) (name desc : string)
    (placement : Placement) (shape : Solid)
    (predefined : option string) (height : option float) : M Element :=
  fun st =>
    let e := mkElement (next_handle st) g c name desc placement shape
                       predefined height in
    Ok (e,
        mkFile (S (next_handle st)) (uuid_calls st) (roots st)
               (storey_entities st) (elements st ++ [e]) (aggregates st)
               (containments st) (material_associations st)).

Definition createIfcRelAggregates (g : Guid) (name : string)
    (relating : nat) (related : list nat) : M unit :=
  fun st =>
    Ok (tt,
        mkFile (next_handle st) (uuid_calls st) (roots st)
               (storey_entities st) (elements st)
               (aggregates st ++ [mkRelAggregates g name relating related])
               (containments st) (material_associations st)).

Definition createIfcRelContainedInSpatialStructure (g : Guid)
    (name : string) (related : list (option Element)) (structure : Storey)
  : M unit :=
  fun st =>
    Ok (tt,
        mkFile (next_handle st) (uuid_calls st) (roots st)
               (storey_entities st) (elements st) (aggregates st)
               (containments st ++ [mkRelContained g name related structure])
               (material_associations st)).

Definition createIfcRelAssociatesMaterial (g : Guid)
    (related : list Element) (usage : MaterialLayerSetUsage) : M unit :=
  fun st =>
    Ok (tt,
        mkFile (next_handle st) (uuid_calls st) (roots st)
               (storey_entities st) (elements st) (aggregates st)
               (containments st)
               (material_associations st ++ [mkRelMaterial g related usage])).

(** Frames and sweep axes used throughout. *)
Definition Z_AXIS : Point3 := (0, 0, 1)%float.
Definition X_AXIS : Point3 := (1, 0, 0)%float.
Definition Y_AXIS : Point3 := (0, 1, 0)%float.

Definition axis_aligned (position : Point3) : Placement :=
  mkPlacement position Z_AXIS X_AXIS.

(* ---------------------------------------------------------------- *)
(** ** Spatial hierarchy *)

Definition create_ifc_model : M Root :=
  g <- create_guid ;;
  createIfcRoot IfcProject g "New York Brownstone"
                "Brownstone on 50'x100' lot".

Definition create_site (project : Root) : M Root :=
  g <- create_guid ;;
  site <- createIfcRoot IfcSite g "Brownstone Site"
                        "Site for brownstone building" ;;
  g <- create_guid ;;
  createIfcRelAggregates g "Project Container" (r_handle project)
                         [r_handle site] ;;
  ret site.

Definition create_building (site : Root) : M Root :=
  g <- create_guid ;;
  building <- createIfcRoot IfcBuilding g "New York Brownstone"
                            "Classic brownstone building" ;;
  g <- create_guid ;;
  createIfcRelAggregates g "Site Container" (r_handle site)
                         [r_handle building] ;;
  ret building.

Definition storey_names : list string :=
  ["Basement"; "First Floor"; "Second Floor"; "Third Floor";
   "Fourth Floor"; "Roof"].

Definition storey_elevations : list float :=
  [ (- convert_to_meter (BASEMENT_HEIGHT P))%float;
    0.0%float;
    convert_to_meter (FIRST_FLOOR_HEIGHT P);
    convert_to_meter (FIRST_FLOOR_HEIGHT P + SECOND_FLOOR_HEIGHT P)%float;
    convert_to_meter (FIRST_FLOOR_HEIGHT P + SECOND_FLOOR_HEIGHT P
                      + THIRD_FLOOR_HEIGHT P)%float;
    convert_to_meter (FIRST_FLOOR_HEIGHT P + SECOND_FLOOR_HEIGHT P
                      + THIRD_FLOOR_HEIGHT P + FOURTH_FLOOR_HEIGHT P)%float ].

Definition create_storeys (building : Root) : M (list Storey) :=
  storeys <-
    mapM (fun '(i, (name, elevation)) =>
            g <- create_guid ;;
            createIfcBuildingStorey g name (name ++ " of the brownstone")
              (axis_aligned (0.0, 0.0, elevation)%float) elevation)
         (enumerate (combine storey_names storey_elevations)) ;;
  g <- create_guid ;;
  createIfcRelAggregates g "Building Container" (r_handle building)
                         (map s_handle storeys) ;;
  ret storeys.

(* ---------------------------------------------------------------- *)
(** ** Walls *)

Definition create_wall_extrusion (length thickness height : float) : Solid :=
  let points :=
    [ (0, - thickness / 2); (length, - thickness / 2);
      (length, thickness / 2); (0, thickness / 2);
      (0, - thickness / 2) ]%float in
  mkSolid points Z_AXIS height.

(** The length [create_wall] computes for a request:
    [math.sqrt(direction[0]**2 + direction[1]**2)]. *)
Definition segment_length (start_point end_point : Point3) : Result float :=
  let '(sx, sy, _) := start_point in
  let '(ex, ey, _) := end_point in
  match pow2 (ex - sx) with
  | Raise e => Raise e
  | Ok dx2 =>
      match pow2 (ey - sy) with
      | Raise e => Raise e
      | Ok dy2 => Ok (PrimFloat.sqrt (dx2 + dy2))
      end
  end.

Definition create_wall (name : string) (start_point end_point : Point3)
    (thickness height : float) (material_layer_set_usage : MaterialLayerSetUsage)
  : M (option Element) :=
  let '(sx, sy, _) := start_point in
  let '(ex, ey, _) := end_point in
  let direction := (ex - sx, ey - sy, 0)%float in
  length <- lift (segment_length start_point end_point) ;;
  if (length =? 0)%float then ret None
  else
    let normalized_direction :=
      ((ex - sx) / length, (ey - sy) / length, 0)%float in
    let wall_placement :=
      mkPlacement start_point Z_AXIS normalized_direction in
    let extrusion := create_wall_extrusion length thickness height in
    g <- create_guid ;;
    wall <- createIfcElement IfcWallStandardCase g name "Exterior Wall"
                             wall_placement extrusion None None ;;
    g <- create_guid ;;
    createIfcRelAssociatesMaterial g [wall] material_layer_set_usage ;;
    ret (Some wall).

Definition wall_heights : list float :=
  [ BASEMENT_HEIGHT P; FIRST_FLOOR_HEIGHT P; SECOND_FLOOR_HEIGHT P;
    THIRD_FLOOR_HEIGHT P; FOURTH_FLOOR_HEIGHT P ].

Definition wall_material_name (i : nat) : string :=
  if (i =? 0)%nat then "Concrete"
  else if ((i =? 1) || (i =? 2))%nat then "Brownstone"
  else "Brick".

(** The body of the loop over [enumerate(storeys[:-1])]. *)
Definition create_storey_walls (i : nat) (storey : Storey)
  : M (list (option Element)) :=
  let storey_elevation := Elevation storey in
  h <- lift (index wall_heights i) ;;
  let wall_height := convert_to_meter h in
  let width := convert_to_meter (BUILDING_WIDTH P) in
  let depth := convert_to_meter (BUILDING_DEPTH P) in
  let thickness := convert_to_meter (WALL_THICKNESS P) in
  let material_layer_set_usage :=
    mkUsage (wall_material_name i) (convert_to_meter (WALL_THICKNESS P)) in
  front_wall <- create_wall "Front Wall"
                  (0, 0, storey_elevation)%float
                  (width, 0, storey_elevation)%float
                  thickness wall_height material_layer_set_usage ;;
  back_wall <- create_wall "Back Wall"
                  (0, depth, storey_elevation)%float
                  (width, depth, storey_elevation)%float
                  thickness wall_height material_layer_set_usage ;;
  left_wall <- create_wall "Left Wall"
                  (0, 0, storey_elevation)%float
                  (0, depth, storey_elevation)%float
                  thickness wall_height material_layer_set_usage ;;
  right_wall <- create_wall "Right Wall"
                  (width, 0, storey_elevation)%float
                  (width, depth, storey_elevation)%float
                  thickness wall_height material_layer_set_usage ;;
  interior <-
    (if (0 <? i)%nat then
       corridor_wall <- create_wall "Corridor Wall"
                          (0, depth / 2, storey_elevation)%float
                          (width, depth / 2, storey_elevation)%float
                          thickness wall_height material_layer_set_usage ;;
       cross_walls <-
         mapM (fun j =>
                 create_wall ("Cross Wall " ++ str j)
                   (width / 3 * float_of_nat j, 0, storey_elevation)%float
                   (width / 3 * float_of_nat j, depth, storey_elevation)%float
                   thickness wall_height material_layer_set_usage)
              (range 1 3) ;;
       ret (corridor_wall :: cross_walls)
     else ret []) ;;
  let walls := [front_wall; back_wall; left_wall; right_wall] ++ interior in
  g <- create_guid ;;
  createIfcRelContainedInSpatialStructure
    g ("Storey " ++ str i ++ " Walls") walls storey ;;
  ret walls.

Definition create_walls (storeys : list Storey)
  : M (list (option Element)) :=
  per_storey <- mapM (fun '(i, storey) => create_storey_walls i storey)
                     (enumerate (removelast storeys)) ;;
  ret (List.concat per_storey).

(* ---------------------------------------------------------------- *)
(** ** Slabs *)

Definition rectangle (a b : float) : list Point2 :=
  [ (0, 0); (a, 0); (a, b); (0, b); (0, 0) ]%float.

Definition create_slab_extrusion (width depth thickness : float) : Solid :=
  mkSolid (rectangle width depth) Z_AXIS thickness.

(** [len(storeys) - 2] is an integer that may be negative, so the test
    [i == len(storeys) - 2] is made on [Z]. *)
Definition below_roof (storeys : list Storey) (i : nat) : bool :=
  (Z.of_nat i =? Z.of_nat (List.length storeys) - 2)%Z.

Definition slab_name (storeys : list Storey) (i : nat) : string :=
  if below_roof storeys i then "Roof" else ("Floor " ++ str (i + 1))%string.

Definition slab_type (storeys : list Storey) (i : nat) : string :=
  if below_roof storeys i then "ROOF" else "FLOOR".

Definition slab_material_name (i : nat) : string :=
  if (i =? 0)%nat then "Concrete" else "Wood Floor".

(** The body of the loop over [enumerate(storeys[:-1])]. *)
Definition create_storey_slab (storeys : list Storey) (i : nat)
    (storey : Storey) : M Element :=
  let storey_elevation := Elevation storey in
  next <- lift (index storeys (i + 1)) ;;
  let next_elevation := Elevation next in
  let width := convert_to_meter (BUILDING_WIDTH P) in
  let depth := convert_to_meter (BUILDING_DEPTH P) in
  let material_layer_set_usage :=
    mkUsage (slab_material_name i) (convert_to_meter (FLOOR_THICKNESS P)) in
  let slab_placement :=
    axis_aligned
      (0.0, 0.0, next_elevation - convert_to_meter (FLOOR_THICKNESS P))%float in
  let extrusion :=
    create_slab_extrusion width depth (convert_to_meter (FLOOR_THICKNESS P)) in
  g <- create_guid ;;
  slab <- createIfcElement IfcSlab g (slab_name storeys i)
            (slab_name storeys i ++ " of the brownstone")
            slab_placement extrusion (Some (slab_type storeys i)) None ;;
  g <- create_guid ;;
  createIfcRelAssociatesMaterial g [slab] material_layer_set_usage ;;
  g <- create_guid ;;
  next' <- lift (index storeys (i + 1)) ;;
  createIfcRelContainedInSpatialStructure
    g ("Storey " ++ str i ++ " Slab") [Some slab] next' ;;
  ret slab.

Definition create_slabs (storeys : list Storey) : M (list Element) :=
  all_slabs <- mapM (fun '(i, storey) => create_storey_slab storeys i storey)
                    (enumerate (removelast storeys)) ;;
  top_storey <- lift (last_item storeys) ;;
  let top_elevation := Elevation top_storey in
  let width := convert_to_meter (BUILDING_WIDTH P) in
  let depth := convert_to_meter (BUILDING_DEPTH P) in
  let roof_material_layer_set_usage :=
    mkUsage "Roof Membrane" (convert_to_meter (ROOF_THICKNESS P)) in
  let roof_placement := axis_aligned (0.0, 0.0, top_elevation)%float in
  let roof_extrusion :=
    create_slab_extrusion width depth (convert_to_meter (ROOF_THICKNESS P)) in
  g <- create_guid ;;
  roof <- createIfcElement IfcSlab g "Roof Slab" "Roof of the brownstone"
            roof_placement roof_extrusion (Some "ROOF") None ;;
  g <- create_guid ;;
  createIfcRelAssociatesMaterial g [roof] roof_material_layer_set_usage ;;
  g <- create_guid ;;
  createIfcRelContainedInSpatialStructure g "Roof Slab" [Some roof]
                                          top_storey ;;
  ret (all_slabs ++ [roof]).

(* ---------------------------------------------------------------- *)
(** ** Doors *)

Definition create_door_extrusion (width height thickness : float) : Solid :=
  mkSolid (rectangle width height) Y_AXIS thickness.

Definition create_door (name : string) (position : Point3)
    (width height : float) : M Element :=
  let door_placement := axis_aligned position in
  let extrusion :=
    create_door_extrusion width height
                          (convert_to_meter (WALL_THICKNESS P)) in
  g <- create_guid ;;
  createIfcElement IfcDoor g name "Door" door_placement extrusion
                   None (Some height).

(** The body of the loop over [enumerate(storeys[:-1])]; the basement
    is skipped. *)
Definition create_storey_doors (building_width building_depth : float)
    (i : nat) (storey : Storey) : M (list Element) :=
  let storey_elevation := Elevation storey in
  if (i =? 0)%nat then ret []
  else
    let door_width := convert_to_meter 3.0 in
    let door_height := convert_to_meter 7.0 in
    interior_doors <-
      mapM (fun j =>
              let door_position :=
                (building_width / 3 * float_of_nat (j + 1),
                 building_depth / 2, storey_elevation)%float in
              create_door ("Interior Door " ++ str i ++ "-" ++ str j)
                          door_position door_width door_height)
           (range 0 2) ;;
    g <- create_guid ;;
    createIfcRelContainedInSpatialStructure
      g ("Storey " ++ str i ++ " Doors") (map Some interior_doors) storey ;;
    ret interior_doors.

Definition create_doors (storeys : list Storey) : M (list Element) :=
  let front_door_width := convert_to_meter 4.0 in
  let front_door_height := convert_to_meter 8.0 in
  let building_width := convert_to_meter (BUILDING_WIDTH P) in
  let building_depth := convert_to_meter (BUILDING_DEPTH P) in
  first_floor <- lift (index storeys 1) ;;
  let front_door_position :=
    (building_width / 2 - front_door_width / 2, 0,
     Elevation first_floor)%float in
  front_door <- create_door "Front Door" front_door_position
                            front_door_width front_door_height ;;
  g <- create_guid ;;
  first_floor' <- lift (index storeys 1) ;;
  createIfcRelContainedInSpatialStructure g "Front Door"
                                          [Some front_door] first_floor' ;;
  interior <- mapM (fun '(i, storey) =>
                      create_storey_doors building_width building_depth
                                          i storey)
                   (enumerate (removelast storeys)) ;;
  ret (front_door :: List.concat interior).

(* ---------------------------------------------------------------- *)
(** ** Windows *)

Definition create_window_extrusion (width height thickness : float)
  : Solid :=
  mkSolid (rectangle width height) Y_AXIS thickness.

Definition create_window (name : string) (position : Point3)
    (width height : float) : M Element :=
  let window_placement := axis_aligned position in
  let extrusion :=
    create_window_extrusion width height
                            (convert_to_meter (WALL_THICKNESS P)) in
  g <- create_guid ;;
  createIfcElement IfcWindow g name "Window" window_placement extrusion
                   None None.

Definition window_heights : list (nat * float) :=
  [ (0, 3.0%float); (1, 6.0%float); (2, 8.0%float); (3, 6.0%float);
    (4, 6.0%float) ].

Definition window_widths : list (nat * float) :=
  [ (0, 3.0%float); (1, 3.5%float); (2, 4.0%float); (3, 3.5%float);
    (4, 3.5%float) ].

(** The position both facade loops compute for window [j]. *)
Definition x_position (building_width window_width : float)
    (window_count j : nat) : float :=
  if (window_count =? 1)%nat
  then (building_width / 2 - window_width / 2)%float
  else (building_width * float_of_nat (j + 1)
          / float_of_nat (window_count + 1)
        - window_width / 2)%float.

(** One of the two inner loops over [range(window_count)]; [facade] is
    "Front" or "Back" and [y] the facade line. *)
Definition create_facade_windows (facade : string) (y : float)
    (building_width window_width window_height sill_height : float)
    (window_count i : nat) (storey_elevation : float) : M (list Element) :=
  mapM (fun j =>
          create_window (facade ++ " Window " ++ str i ++ "-" ++ str j)
            (x_position building_width window_width window_count j, y,
             storey_elevation + sill_height)%float
            window_width window_height)
       (range 0 window_count).

(** The body of the loop over [enumerate(storeys[:-1])]. *)
Definition create_storey_windows (i : nat) (storey : Storey)
  : M (list Element) :=
  let window_count := if (i =? 0)%nat then 2 else 3 in
  let storey_elevation := Elevation storey in
  let building_width := convert_to_meter (BUILDING_WIDTH P) in
  let building_depth := convert_to_meter (BUILDING_DEPTH P) in
  w <- lift (getitem window_widths i) ;;
  let window_width := convert_to_meter w in
  h <- lift (getitem window_heights i) ;;
  let window_height := convert_to_meter h in
  let sill_height := convert_to_meter 3.0 in
  front_windows <-
    create_facade_windows "Front" 0 building_width window_width
      window_height sill_height window_count i storey_elevation ;;
  back_windows <-
    create_facade_windows "Back" building_depth building_width window_width
      window_height sill_height window_count i storey_elevation ;;
  g <- create_guid ;;
  createIfcRelContainedInSpatialStructure
    g ("Storey " ++ str i ++ " Windows")
    (map Some (front_windows ++ back_windows)) storey ;;
  ret (front_windows ++ back_windows).

Definition create_windows (storeys : list Storey) : M (list Element) :=
  per_storey <- mapM (fun '(i, storey) => create_storey_windows i storey)
                     (enumerate (removelast storeys)) ;;
  ret (List.concat per_storey).

(* ---------------------------------------------------------------- *)
(** ** Stoop *)

Definition create_stoop_extrusion (width depth height : float) : Solid :=
  mkSolid (rectangle width depth) Z_AXIS height.

Definition create_stoop (storeys : list Storey) : M Element :=
  let stoop_width := convert_to_meter 12.0 in
  let stoop_depth := convert_to_meter 8.0 in
  let stoop_height := convert_to_meter 5.0 in
  let building_width := convert_to_meter (BUILDING_WIDTH P) in
  let stoop_position :=
    (building_width / 2 - stoop_width / 2, - stoop_depth, 0)%float in
  let stoop_placement := axis_aligned stoop_position in
  let extrusion :=
    create_stoop_extrusion stoop_width stoop_depth stoop_height in
  g <- create_guid ;;
  stoop <- createIfcElement IfcStair g "Front Stoop"
             "Brownstone front stoop" stoop_placement extrusion
             (Some "STRAIGHT") None ;;
  let material_association := mkUsage "Brownstone" 0.2 in
  g <- create_guid ;;
  createIfcRelAssociatesMaterial g [stoop] material_association ;;
  g <- create_guid ;;
  first_floor <- lift (index storeys 1) ;;
  createIfcRelContainedInSpatialStructure g "Stoop" [Some stoop]
                                          first_floor ;;
  ret stoop.

(* ---------------------------------------------------------------- *)
(** ** Fixtures *)

Definition create_fixture_extrusion (width depth height : float) : Solid :=
  mkSolid (rectangle width depth) Z_AXIS height.

Definition create_fixture (name : string) (position : Point3)
    (width depth height : float) (fixture_type : string) : M Element :=
  let fixture_placement := axis_aligned position in
  let extrusion := create_fixture_extrusion width depth height in
  g <- create_guid ;;
  fixture <- createIfcElement IfcSanitaryTerminal g name "Sanitary fixture"
               fixture_placement extrusion (Some fixture_type) None ;;
  let material_name :=
    if (fixture_type =? "SINK")%string then "Porcelain" else "Ceramic" in
  let material_association := mkUsage material_name 0.05 in
  g <- create_guid ;;
  createIfcRelAssociatesMaterial g [fixture] material_association ;;
  ret fixture.

(** The body of the loop over [range(2, 5)]. *)
Definition create_bathroom (storeys : list Storey)
    (building_width building_depth : float) (i : nat) : M (list Element) :=
  storey <- lift (index storeys i) ;;
  let toilet_position :=
    (building_width * 0.75, building_depth * 0.25,
     Elevation storey + convert_to_meter 0.0)%float in
  toilet <- create_fixture ("Toilet Floor " ++ str i) toilet_position
              (convert_to_meter 1.5) (convert_to_meter 2.0)
              (convert_to_meter 1.0) "WCCISTERN" ;;
  let bath_sink_position :=
    (building_width * 0.75, building_depth * 0.35,
     Elevation storey + convert_to_meter 3.0)%float in
  bath_sink <- create_fixture ("Bathroom Sink Floor " ++ str i)
                 bath_sink_position
                 (convert_to_meter 2.0) (convert_to_meter 1.5)
                 (convert_to_meter 0.5) "SINK" ;;
  g <- create_guid ;;
  createIfcRelContainedInSpatialStructure
    g ("Storey " ++ str i ++ " Fixtures") [Some toilet; Some bath_sink]
    storey ;;
  ret [toilet; bath_sink].

Definition create_fixtures (storeys : list Storey) : M (list Element) :=
  let building_width := convert_to_meter (BUILDING_WIDTH P) in
  let building_depth := convert_to_meter (BUILDING_DEPTH P) in
  first_floor <- lift (index storeys 1) ;;
  let sink_position :=
    (building_width * 0.25, building_depth * 0.3,
     Elevation first_floor + convert_to_meter 3.0)%float in
  sink <- create_fixture "Kitchen Sink" sink_position
            (convert_to_meter 3.0) (convert_to_meter 2.0)
            (convert_to_meter 0.5) "SINK" ;;
  bathrooms <- mapM (create_bathroom storeys building_width building_depth)
                    (range 2 5) ;;
  g <- create_guid ;;
  first_floor' <- lift (index storeys 1) ;;
  createIfcRelContainedInSpatialStructure g "Kitchen Fixtures" [Some sink]
                                          first_floor' ;;
  ret (sink :: List.concat bathrooms).

(* ---------------------------------------------------------------- *)
(** ** MEP elements *)

Definition create_mep_element (name : string) (position : Point3)
    (width depth height : float) (element_type : string) : M Element :=
  let element_placement := axis_aligned position in
  let extrusion := create_fixture_extrusion width depth height in
  element <-
    (if (element_type =? "AIRHANDLER")%string then
       g <- create_guid ;;
       createIfcElement IfcUnitaryEquipment g name "HVAC equipment"
         element_placement extrusion (Some element_type) None
     else if (element_type =? "SWITCHBOARD")%string then
       g <- create_guid ;;
       createIfcElement IfcElectricDistributionBoard g name
         "Electrical equipment" element_placement extrusion
         (Some element_type) None
     else if (element_type =? "WATERHEATER")%string then
       g <- create_guid ;;
       createIfcElement IfcFlowTerminal g name "Plumbing equipment"
         element_placement extrusion None None
     else
       (* no branch binds [element]; its first use fails *)
       lift (Raise UnboundLocalError)) ;;
  let material_association := mkUsage "Metal" 0.05 in
  g <- create_guid ;;
  createIfcRelAssociatesMaterial g [element] material_association ;;
  ret element.

Definition create_mep_elements (storeys : list Storey) : M (list Element) :=
  let building_width := convert_to_meter (BUILDING_WIDTH P) in
  let building_depth := convert_to_meter (BUILDING_DEPTH P) in
  basement <- lift (index storeys 0) ;;
  let hvac_position :=
    (building_width * 0.2, building_depth * 0.2,
     Elevation basement + convert_to_meter 1.0)%float in
  hvac_unit <- create_mep_element "HVAC System" hvac_position
                 (convert_to_meter 6.0) (convert_to_meter 4.0)
                 (convert_to_meter 2.0) "AIRHANDLER" ;;
  let panel_position :=
    (building_width * 0.8, building_depth * 0.1,
     Elevation basement + convert_to_meter 1.0)%float in
  electrical_panel <- create_mep_element "Electrical Panel" panel_position
                        (convert_to_meter 2.0) (convert_to_meter 0.5)
                        (convert_to_meter 3.0) "SWITCHBOARD" ;;
  let water_heater_position :=
    (building_width * 0.5, building_depth * 0.1,
     Elevation basement + convert_to_meter 1.0)%float in
  water_heater <- create_mep_element "Water Heater" water_heater_position
                    (convert_to_meter 2.0) (convert_to_meter 2.0)
                    (convert_to_meter 2.0) "WATERHEATER" ;;
  g <- create_guid ;;
  createIfcRelContainedInSpatialStructure
    g "MEP Systems"
    [Some hvac_unit; Some electrical_panel; Some water_heater] basement ;;
  ret [hvac_unit; electrical_panel; water_heater].

(* ---------------------------------------------------------------- *)
(** ** The complete build *)

(** What [create_brownstone_ifc] holds in its local variables when it
    writes the file. *)
Record Build : Type := mkBuild {
  b_storeys : list Storey;
  b_walls : list (option Element);
  b_slabs : list Element;
  b_windows : list Element;
  b_doors : list Element;
  b_stoop : Element;
  b_fixtures : list Element;
  b_mep_elements : list Element
}.

Definition create_brownstone_ifc : M Build :=
  project <- create_ifc_model ;;
  site <- create_site project ;;
  building <- create_building site ;;
  storeys <- create_storeys building ;;
  walls <- create_walls storeys ;;
  slabs <- create_slabs storeys ;;
  windows <- create_windows storeys ;;
  doors <- create_doors storeys ;;
  stoop <- create_stoop storeys ;;
  fixtures <- create_fixtures storeys ;;
  mep_elements <- create_mep_elements storeys ;;
  ret (mkBuild storeys walls slabs windows doors stoop fixtures mep_elements).

End Generator.

(** A run of the script: the build started on a fresh file. *)
Definition run (env : Env) (P : Parameters) : Result (Build * IfcFile) :=
  create_brownstone_ifc env P empty_file.

(* ================================================================== *)
(** ** Comparison of lengths *)

(** [abs(a - b) < tol]. *)
Definition close_to (tol a b : float) : bool :=
  (PrimFloat.abs (a - b) <? tol)%float.

(** Every value of a parameter record is a positive number. *)
Definition valid_parameters (P : Parameters) : bool :=
  forallb (fun v => (0 <? v)%float)
    [ BUILDING_WIDTH P; BUILDING_DEPTH P; BASEMENT_HEIGHT P;
      FIRST_FLOOR_HEIGHT P; SECOND_FLOOR_HEIGHT P; THIRD_FLOOR_HEIGHT P;
      FOURTH_FLOOR_HEIGHT P; WALL_THICKNESS P; FLOOR_THICKNESS P;
      ROOF_THICKNESS P ].

(** The height a storey is meant to have: the basement height for storey
    0, then the four floor heights. *)
Definition nominal_heights (P : Parameters) : list float :=
  map convert_to_meter (wall_heights P).

(** [elevation[i+1] - elevation[i]] for [i = 0 .. 4]. *)
Fixpoint differences (l : list float) : list float :=
  match l with
  | a :: ((b :: _) as l') => (b - a)%float :: differences l'
  | _ => []
  end.

(** Pointwise [close_to] on two lists of the same length. *)
Fixpoint all_close (tol : float) (l1 l2 : list float) : bool :=
  match l1, l2 with
  | [], [] => true
  | a :: l1', b :: l2' => close_to tol a b && all_close tol l1' l2'
  | _, _ => false
  end.

(** The script's values with a first floor of one billion feet. *)
Definition tall_first_floor : Parameters :=
  mkParameters 40.0 80.0 9.0 1e9 14.0 12.0 12.0 1.0 1.0 1.5.

(* ================================================================== *)
(** ** Reading a finished file *)

Definition is_slab (e : Element) : bool :=
  match class e with IfcSlab => true | _ => false end.

Definition is_wall (e : Element) : bool :=
  match class e with IfcWallStandardCase => true | _ => false end.

(** The items of a Python list that are not [None]. *)
Fixpoint somes {A : Type} (l : list (option A)) : list A :=
  match l with
  | [] => []
  | Some a :: l' => a :: somes l'
  | None :: l' => somes l'
  end.

(** The elements the containment relations of [f] give to storey [s]. *)
Definition contained_in (f : IfcFile) (s : Storey) : list Element :=
  flat_map (fun r =>
              if (s_handle (RelatingStructure r) =? s_handle s)%nat
              then somes (RelatedElements r) else [])
           (containments f).

(** How many times the containment relations of [f] list element [e]. *)
Definition times_contained (f : IfcFile) (e : Element) : nat :=
  List.length
    (filter (fun e' => (handle e' =? handle e)%nat)
            (flat_map (fun r => somes (RelatedElements r)) (containments f))).

(** Where a floor slab under storey [next] is placed and what it sweeps. *)
Definition floor_placement (P : Parameters) (next : Storey) : Placement :=
  axis_aligned
    (0, 0, Elevation next - convert_to_meter (FLOOR_THICKNESS P))%float.

Definition floor_solid (P : Parameters) : Solid :=
  create_slab_extrusion (convert_to_meter (BUILDING_WIDTH P))
                        (convert_to_meter (BUILDING_DEPTH P))
                        (convert_to_meter (FLOOR_THICKNESS P)).

Definition roof_solid (P : Parameters) : Solid :=
  create_slab_extrusion (convert_to_meter (BUILDING_WIDTH P))
                        (convert_to_meter (BUILDING_DEPTH P))
                        (convert_to_meter (ROOF_THICKNESS P)).

(** The top face of a solid swept upwards from its placement. *)
Definition top_of (e : Element) : float :=
  let '(_, _, z) := Location (ObjectPlacement e) in
  (z + Depth (Representation e))%float.

(** A run whose identifiers are ["g0"], ["g1"], ... *)
Definition numbered : Env := mkEnv (fun n => ("g" ++ str n)%string).

Definition location_of (e : Element) : Point3 := Location (ObjectPlacement e).

(** The even-distribution rule for [N] openings of width [w] along a
    facade of length [L], on the facade line [y] at height [z]:
    opening [j] stands at [L * (j+1) / (N+1) - w/2]. *)
Definition evenly_spaced (L w : float) (N : nat) (y z : float)
  : list Point3 :=
  map (fun j =>
         (L * float_of_nat (j + 1) / float_of_nat (N + 1) - w / 2, y, z)%float)
      (seq 0 N).

(** The window width the script's table gives storey [i], in metres. *)
Definition window_width_of (i : nat) : float :=
  match getitem window_widths i with
  | Ok w => convert_to_meter w
  | Raise _ => 0%float
  end.

(** Number of windows per facade on storey [i]. *)
Definition window_count_of (i : nat) : nat :=
  if (i =? 0)%nat then 2 else 3.

(** Where the windows of storey [i] are expected: the front facade
    ([y = 0]) then the back facade ([y = depth]), at sill height. *)
Definition expected_window_locations (P : Parameters) (i : nat)
    (storey : Storey) : list Point3 :=
  let L := convert_to_meter (BUILDING_WIDTH P) in
  let z := (Elevation storey + convert_to_meter 3.0)%float in
  evenly_spaced L (window_width_of i) (window_count_of i) 0%float z
  ++ evenly_spaced L (window_width_of i) (window_count_of i)
       (convert_to_meter (BUILDING_DEPTH P)) z.

(** Six storeys at the elevations of the script, for use as a sample
    argument of the generators. *)
Definition sample_storeys : list Storey :=
  map (fun '(i, (name, elevation)) =>
         mkStorey (3 + i) ("g" ++ str (5 + i))%string name
                  (name ++ " of the brownstone")%string
                  (axis_aligned (0, 0, elevation)%float) elevation)
      (enumerate (combine storey_names (storey_elevations globals))).

(** [a == b] on the two plan coordinates and the height of two points,
    as Python compares lists of floats. *)
Definition points_equal (a b : Point3) : bool :=
  let '(ax, ay, az) := a in
  let '(bx, by_, bz) := b in
  ((ax =? bx) && (ay =? by_) && (az =? bz))%float.

(** Neither plan coordinate of the point is infinite or a NaN. *)
Definition finite_in_plan (a : Point3) : bool :=
  let '(ax, ay, _) := a in
  PrimFloat.is_finite ax && PrimFloat.is_finite ay.

(** Where a wall starts and how far its profile runs along its axis. *)
Definition wall_span (wall : Element) : Point3 * float :=
  (Location (ObjectPlacement wall),
   match Polyline (Representation wall) with
   | _ :: (length, _) :: _ => length
   | _ => 0%float
   end).

(** A wall request: name, start point, end point. *)
Definition Segment : Type := string * Point3 * Point3.

(** The four perimeter walls of a footprint [w] by [d] at height [z]. *)
Definition perimeter_segments (w d z : float) : list Segment :=
  [ ("Front Wall", (0, 0, z), (w, 0, z));
    ("Back Wall", (0, d, z), (w, d, z));
    ("Left Wall", (0, 0, z), (0, d, z));
    ("Right Wall", (w, 0, z), (w, d, z)) ]%float.

(** The corridor wall at half the depth and the two cross walls at the
    thirds of the width. *)
Definition interior_segments (w d z : float) : list Segment :=
  [ ("Corridor Wall", (0, d / 2, z), (w, d / 2, z));
    ("Cross Wall 1", (w / 3 * 1, 0, z), (w / 3 * 1, d, z));
    ("Cross Wall 2", (w / 3 * 2, 0, z), (w / 3 * 2, d, z)) ]%float.

(** The walls expected on storey [i]. *)
Definition storey_segments (i : nat) (w d z : float) : list Segment :=
  perimeter_segments w d z
  ++ (if (0 <? i)%nat then interior_segments w d z else []).

(** The request has a computed length, and it is not zero. *)
Definition proper_segment (s : Segment) : bool :=
  let '(_, start_point, end_point) := s in
  match segment_length start_point end_point with
  | Ok len => negb (len =? 0)%float
  | Raise _ => false
  end.

(** None of the seven wall lines of the footprint is degenerate. *)
Definition footprint_proper (P : Parameters) : bool :=
  forallb proper_segment
    (storey_segments 1 (convert_to_meter (BUILDING_WIDTH P))
                     (convert_to_meter (BUILDING_DEPTH P)) 0%float).

(** What a created wall shows of its request: the name, the start point
    and the computed length. *)
Definition wall_view (w : option Element)
  : option (string * (Point3 * float)) :=
  option_map (fun e => (Name e, wall_span e)) w.

Definition expected_view (s : Segment) : option (string * (Point3 * float)) :=
  let '(name, start_point, end_point) := s in
  match segment_length start_point end_point with
  | Ok len => Some (name, (start_point, len))
  | Raise _ => None
  end.

Definition is_some_wall (w : option Element) : bool :=
  match w with
  | Some e => is_wall e
  | None => false
  end.

(** Name, origin, reference axis and length of a wall. *)
Definition wall_frame (e : Element) : string * Point3 * Point3 * float :=
  (Name e, Location (ObjectPlacement e), RefDirection (ObjectPlacement e),
   snd (wall_span e)).

(* ================================================================== *)
(** ** The shape of a graph: everything but the identifiers *)

Definition erase_guid (g : Guid) : Guid := "".

Definition erase_root (r : Root) : Root :=
  mkRoot (r_handle r) "" (r_class r) (r_Name r) (r_Description r).

Definition erase_storey (s : Storey) : Storey :=
  mkStorey (s_handle s) "" (s_Name s) (s_Description s) (s_Placement s)
           (Elevation s).

Definition erase_element (e : Element) : Element :=
  mkElement (handle e) "" (class e) (Name e) (Description e)
            (ObjectPlacement e) (Representation e) (PredefinedType e)
            (OverallHeight e).

Definition erase_aggregates (a : RelAggregates) : RelAggregates :=
  mkRelAggregates "" (ra_Name a) (RelatingObject a) (RelatedObjects a).

Definition erase_contained (r : RelContainedInSpatialStructure)
  : RelContainedInSpatialStructure :=
  mkRelContained "" (rc_Name r)
                 (map (option_map erase_element) (RelatedElements r))
                 (erase_storey (RelatingStructure r)).

Definition erase_material (m : RelAssociatesMaterial)
  : RelAssociatesMaterial :=
  mkRelMaterial "" (map erase_element (rm_RelatedObjects m))
                (RelatingMaterial m).

Definition erase_file (f : IfcFile) : IfcFile :=
  mkFile (next_handle f) (uuid_calls f)
         (map erase_root (roots f))
         (map erase_storey (storey_entities f))
         (map erase_element (elements f))
         (map erase_aggregates (aggregates f))
         (map erase_contained (containments f))
         (map erase_material (material_associations f)).

Definition erase_build (b : Build) : Build :=
  mkBuild (map erase_storey (b_storeys b))
          (map (option_map erase_element) (b_walls b))
          (map erase_element (b_slabs b))
          (map erase_element (b_windows b))
          (map erase_element (b_doors b))
          (erase_element (b_stoop b))
          (map erase_element (b_fixtures b))
          (map erase_element (b_mep_elements b)).

(** The outcome of a run up to identifiers: entities keep their order of
    creation, names, categories, placements, solids, materials and
    containment. *)
Definition shape (r : Result (Build * IfcFile)) : Result (Build * IfcFile) :=
  match r with
  | Ok (b, f) => Ok (erase_build b, erase_file f)
  | Raise e => Raise e
  end.

(** Two values with the same erasure. *)
Definition same {A : Type} (erase : A -> A) (a b : A) : Prop :=
  erase a = erase b.

(** Two computations that, started on files of the same shape, both
    raise the same exception or both return, with related results and
    files of the same shape. *)
Definition sim {A : Type} (R : A -> A -> Prop) (m1 m2 : M A) : Prop :=
  forall st1 st2,
    erase_file st1 = erase_file st2 ->
    match m1 st1, m2 st2 with
    | Ok (a1, s1), Ok (a2, s2) => R a1 a2 /\ erase_file s1 = erase_file s2
    | Raise e1, Raise e2 => e1 = e2
    | _, _ => False
    end.

(** How many elements of a category a file holds. *)
Definition count_class (c : Element -> bool) (f : IfcFile) : nat :=
  List.length (filter c (elements f)).

(** What an element is, apart from its identifier. *)
Definition element_view (e : Element)
  : nat * IfcClass * string * Placement * Solid * option string :=
  (handle e, class e, Name e, ObjectPlacement e, Representation e,
   PredefinedType e).

(** What a containment relation holds: the elements, by handle, and the
    storey, by handle. *)
Definition containment_view (r : RelContainedInSpatialStructure)
  : list (option nat) * nat :=
  (map (option_map handle) (RelatedElements r),
   s_handle (RelatingStructure r)).

(** The storeys of [l] whose containment set lists element [e]. *)
Definition storeys_containing (f : IfcFile) (l : list Storey) (e : Element)
  : list Storey :=
  filter (fun s => existsb (fun e' => (handle e' =? handle e)%nat)
                           (contained_in f s)) l.

(** Element [e] is listed exactly once over all containment relations,
    in the set of exactly one storey of [l]. *)
Definition in_one_storey (f : IfcFile) (l : list Storey) (e : Element)
  : bool :=
  ((times_contained f e =? 1) &&
   (List.length (storeys_containing f l e) =? 1))%nat.

(** The elements a build returned, in the order of the generators. *)
Definition generated (b : Build) : list Element :=
  somes (b_walls b) ++ b_slabs b ++ b_windows b ++ b_doors b
  ++ [b_stoop b] ++ b_fixtures b ++ b_mep_elements b.

(** The run returned, and [Q] holds of the build and the file. *)
Definition holds_after (Q : Build -> IfcFile -> Prop)
    (r : Result (Build * IfcFile)) : Prop :=
  match r with
  | Ok (b, f) => Q b f
  | Raise _ => False
  end.


(* ================================================================== *)
(** ** Vocabulary for the other generators *)

(** Where the two corridor doors of a storey at height [z] stand. *)
Definition interior_door_locations (P : Parameters) (z : float)
  : list Point3 :=
  let w := convert_to_meter (BUILDING_WIDTH P) in
  let d := convert_to_meter (BUILDING_DEPTH P) in
  [ (w / 3 * 1, d / 2, z); (w / 3 * 2, d / 2, z) ]%float.

(** What a containment relation relates. *)
Definition relation_view (r : RelContainedInSpatialStructure)
  : list (option Element) * Storey :=
  (RelatedElements r, RelatingStructure r).

(** What a material association relates. *)
Definition material_view (m : RelAssociatesMaterial)
  : list Element * MaterialLayerSetUsage :=
  (rm_RelatedObjects m, RelatingMaterial m).

(** The interior doors of the storeys in [l], none in the basement:
    [doors] holds the doors of each storey, [l] the indexed storeys. *)
Definition door_relations (l : list (nat * Storey))
    (doors : list (list Element)) : list (list (option Element) * Storey) :=
  flat_map (fun '((i, s), ds) =>
              if (i =? 0)%nat then [] else [(map Some ds, s)])
           (combine l doors).

(** From [st] to [st'] the file gained the elements [E], the containment
    relations [R] and the material associations [Mt], in that order, and
    nothing else changed but the count of identifiers drawn. *)
Definition adds (st st' : IfcFile) (E : list Element)
    (R : list RelContainedInSpatialStructure)
    (Mt : list RelAssociatesMaterial) : Prop :=
  elements st' = elements st ++ E
  /\ containments st' = containments st ++ R
  /\ material_associations st' = material_associations st ++ Mt
  /\ next_handle st' = next_handle st + List.length E
  /\ map handle E = seq (next_handle st) (List.length E)
  /\ roots st' = roots st
  /\ storey_entities st' = storey_entities st
  /\ aggregates st' = aggregates st.

(** The fixtures of one upper floor, as (name, type, location). *)
Definition bathroom_view (P : Parameters) (i : nat) (storey : Storey)
  : list (string * option string * Point3) :=
  let w := convert_to_meter (BUILDING_WIDTH P) in
  let d := convert_to_meter (BUILDING_DEPTH P) in
  [ (("Toilet Floor " ++ str i)%string, Some "WCCISTERN",
     (w * 0.75, d * 0.25, Elevation storey + convert_to_meter 0.0)%float);
    (("Bathroom Sink Floor " ++ str i)%string, Some "SINK",
     (w * 0.75, d * 0.35, Elevation storey + convert_to_meter 3.0)%float) ].

Definition fixture_view (e : Element) : string * option string * Point3 :=
  (Name e, PredefinedType e, location_of e).

(** The material a sanitary terminal of the given type is made of. *)
Definition fixture_material (fixture_type : option string) : string :=
  match fixture_type with
  | Some "SINK" => "Porcelain"
  | _ => "Ceramic"
  end.

Definition kitchen_view (P : Parameters) (first_floor : Storey)
  : string * option string * Point3 :=
  ("Kitchen Sink", Some "SINK",
   (convert_to_meter (BUILDING_WIDTH P) * 0.25,
    convert_to_meter (BUILDING_DEPTH P) * 0.3,
    Elevation first_floor + convert_to_meter 3.0)%float).

(** The equipment of the basement, as (class, name, type, location,
    solid). *)
Definition mep_view (e : Element)
  : IfcClass * string * option string * Point3 * Solid :=
  (class e, Name e, PredefinedType e, location_of e, Representation e).

Definition box (width depth height : float) : Solid :=
  mkSolid (rectangle (convert_to_meter width) (convert_to_meter depth))
          Z_AXIS (convert_to_meter height).

Definition expected_mep (P : Parameters) (basement : Storey)
  : list (IfcClass * string * option string * Point3 * Solid) :=
  let w := convert_to_meter (BUILDING_WIDTH P) in
  let d := convert_to_meter (BUILDING_DEPTH P) in
  let z := (Elevation basement + convert_to_meter 1.0)%float in
  [ (IfcUnitaryEquipment, "HVAC System", Some "AIRHANDLER",
     (w * 0.2, d * 0.2, z)%float, box 6.0 4.0 2.0);
    (IfcElectricDistributionBoard, "Electrical Panel", Some "SWITCHBOARD",
     (w * 0.8, d * 0.1, z)%float, box 2.0 0.5 3.0);
    (IfcFlowTerminal, "Water Heater", None,
     (w * 0.5, d * 0.1, z)%float, box 2.0 2.0 2.0) ].

(* ================================================================== *)
(** ** Summaries of generator calls *)

(** The elements a list of containment relations lists, relation by
    relation; [None] entries are not elements. *)
Definition listed (R : list RelContainedInSpatialStructure) : list Element :=
  flat_map (fun r => somes (RelatedElements r)) R.

(** The elements a list of material associations covers. *)
Definition with_material (Mt : list RelAssociatesMaterial) : list Element :=
  flat_map rm_RelatedObjects Mt.

Definition Summary (A : Type) : Type :=
  A -> list Element -> list RelContainedInSpatialStructure
  -> list RelAssociatesMaterial -> Prop.

(** Whatever the file, the call either raises [OverflowError], which
    it does only if [err] holds, or returns some [a] after adding
    elements [E], containment relations [R] and material associations
    [Mt] that satisfy [Q], and nothing else. *)
Definition produces {A : Type} (err : Prop) (m : M A) (Q : Summary A)
  : Prop :=
  forall st,
    match m st with
    | Ok (a, st') => exists E R Mt, adds st st' E R Mt /\ Q a E R Mt
    | Raise e => e = OverflowError /\ err
    end.

(** A generator left the file tidy: it added the elements [out] it
    returned and no other, listed each of them once over its containment
    relations, all of them relations to storeys of [storeys], and gave
    each element one material association ([material = true]) or none at
    all ([material = false]). *)
Definition tidy (storeys : list Storey) (material : bool)
    (out : list Element) : Summary unit :=
  fun _ E R Mt =>
    E = out
    /\ Permutation (listed R) E
    /\ Forall (fun r => In (RelatingStructure r) storeys) R
    /\ with_material Mt = (if material then E else []).

(** The summaries of the rounds of a loop, one after the other. *)
Inductive each {A B : Type} (Q : A -> Summary B)
  : list A -> Summary (list B) :=
| each_nil : each Q [] [] [] [] []
| each_cons x l b bs E1 R1 M1 E R Mt :
    Q x b E1 R1 M1 -> each Q l bs E R Mt ->
    each Q (x :: l) (b :: bs) (E1 ++ E) (R1 ++ R) (M1 ++ Mt).

(** The elements of a build that the generators give a material layer:
    all but the windows and the doors. *)
Definition layered (b : Build) : list Element :=
  somes (b_walls b) ++ b_slabs b ++ [b_stoop b] ++ b_fixtures b
  ++ b_mep_elements b.

(** What a finished file shows of the spatial structure: the handle and
    class of each root, and each aggregation as (whole, parts). *)
Definition root_view (r : Root) : nat * IfcClass := (r_handle r, r_class r).

Definition aggregate_view (a : RelAggregates) : nat * list nat :=
  (RelatingObject a, RelatedObjects a).

(** A record whose building is too wide for its squared width to be a
    binary64 number. *)
Definition wide_building : Parameters :=
  mkParameters 1e200 80.0 9.0 10.0 14.0 12.0 12.0 1.0 1.0 1.5.

(** The length of each of the seven wall lines of the footprint can be
    computed: no square overflows. *)
Definition measurable (P : Parameters) : bool :=
  forallb (fun '(_, start_point, end_point) =>
             match segment_length start_point end_point with
             | Ok _ => true
             | Raise _ => false
             end)
          (storey_segments 1 (convert_to_meter (BUILDING_WIDTH P))
                           (convert_to_meter (BUILDING_DEPTH P)) 0%float).

(** Element [e'] is element [e]. *)
Definition is_element (e e' : Element) : bool :=
  (handle e' =? handle e)%nat.

(** The elements relation [r] gives to storey [s]. *)
Definition held (r : RelContainedInSpatialStructure) (s : Storey)
  : list Element :=
  if (s_handle (RelatingStructure r) =? s_handle s)%nat
  then somes (RelatedElements r) else [].

(* ================================================================== *)
(** ** Running the monad *)

Lemma bind_ok {A B : Type} (m : M A) (f : A -> M B) st a st' :
  m st = Ok (a, st') -> bind m f st = f a st'.
Proof. intros H. unfold bind. now rewrite H. Qed.
Arguments bind_ok {A B m} f {st a st'} _.

Lemma bind_lift {A B : Type} (a : A) (f : A -> M B) st :
  bind (lift (Ok a)) f st = f a st.
Proof. reflexivity. Qed.

Lemma bind_assoc {A B C : Type} (m : M A) (f : A -> M B) (g : B -> M C) st :
  bind (bind m f) g st = bind m (fun x => bind (f x) g) st.
Proof. unfold bind. destruct (m st) as [[a st']|e]; reflexivity. Qed.

Lemma bind_raise {A B : Type} (m : M A) (f : A -> M B) st e :
  m st = Raise e -> bind m f st = Raise e.
Proof. intros H. unfold bind. now rewrite H. Qed.
Arguments bind_raise {A B m} f {st e} _.

Lemma bind_inv {A B : Type} (m : M A) (f : A -> M B) st b st'' :
  bind m f st = Ok (b, st'') ->
  exists a st', m st = Ok (a, st') /\ f a st' = Ok (b, st'').
Proof.
  unfold bind. destruct (m st) as [[a st']|e]; [|discriminate].
  intros H. now exists a, st'.
Qed.

(* ================================================================== *)
(** ** Unit conversion *)

(** C8, as the code has it: [convert_to_meter] takes a length in feet and
    nothing else; it is a total function that returns [feet * 0.3048].
    The inch scale [0.0254] is a constant of the module that no conversion
    uses.  One foot converted and divided by [0.3048] is [1.0] exactly. *)
Theorem convert_to_meter_feet_only :
  forall value : float,
    convert_to_meter value = (value * 0.3048)%float /\
    INCH_TO_METER = 0.0254%float /\
    (convert_to_meter 1 / 0.3048)%float = 1%float.
Proof.
  intros value. repeat split.
Qed.

(** C8 as stated fails: a length of one inch handed to the converter is
    scaled as one foot, not by the inch scale. *)
Lemma convert_to_meter_no_inch :
  convert_to_meter 1 = 0.3048%float /\
  (convert_to_meter 1 =? 1 * INCH_TO_METER)%float = false.
Proof. split; reflexivity. Qed.

(* ================================================================== *)
(** ** Storeys *)

Section StoreyFacts.

Variable env : Env.
Variable P : Parameters.

(** The storey loop, from any index and state: one storey per
    (name, elevation) pair, in order. *)
Lemma storey_loop_ok (k : nat) (l : list (string * float)) st :
  exists storeys st',
    mapM (fun '(i, (name, elevation)) =>
            g <- create_guid env ;;
            createIfcBuildingStorey g name (name ++ " of the brownstone")
              (axis_aligned (0.0, 0.0, elevation)%float) elevation)
         (enumerate_from k l) st = Ok (storeys, st')
    /\ map s_Name storeys = map fst l
    /\ map Elevation storeys = map snd l
    /\ Forall (fun s => s_Placement s
                        = axis_aligned (0, 0, Elevation s)%float) storeys.
Proof.
  revert k st. induction l as [|[name elevation] l IH]; intros k st.
  - exists [], st. repeat split. constructor.
  - cbn [enumerate_from mapM].
    match goal with |- context [bind (?f ?x) _ st] =>
      assert (Hf : exists s st1, f x st = Ok (s, st1)
                   /\ s_Name s = name /\ Elevation s = elevation
                   /\ s_Placement s = axis_aligned (0, 0, Elevation s)%float)
        by (eexists; eexists; split; [reflexivity | repeat split])
    end.
    destruct Hf as (s & st1 & Hs & Hn & He & Hp).
    destruct (IH (S k) st1) as (ss & st' & Hrun & Hns & Hes & Hps).
    exists (s :: ss), st'.
    rewrite (bind_ok _ Hs), (bind_ok _ Hrun).
    split; [reflexivity|].
    cbn [map fst snd]. rewrite Hn, He, Hns, Hes.
    repeat split. constructor; assumption.
Qed.

(** The result of [create_storeys], from any state. *)
Lemma create_storeys_ok (building : Root) st :
  exists storeys st',
    create_storeys env P building st = Ok (storeys, st')
    /\ map s_Name storeys = storey_names
    /\ map Elevation storeys = storey_elevations P
    /\ Forall (fun s => s_Placement s
                        = axis_aligned (0, 0, Elevation s)%float) storeys.
Proof.
  unfold create_storeys, enumerate.
  destruct (storey_loop_ok 0 (combine storey_names (storey_elevations P)) st)
    as (ss & st' & Hrun & Hn & He & Hp).
  rewrite (bind_ok _ Hrun).
  eexists ss, _. split; [reflexivity|].
  rewrite Hn, He. repeat split; assumption.
Qed.

End StoreyFacts.



(* ================================================================== *)
(** ** Slabs *)

Lemma length_removelast' {A : Type} (l : list A) :
  List.length (removelast l) = List.length l - 1.
Proof.
  induction l as [|a [|b l] IH]; cbn [removelast List.length] in *; try lia.
Qed.

Lemma last_item_cons {A : Type} (a : A) (l : list A) :
  last_item (a :: l) = Ok (last l a).
Proof.
  unfold last_item. revert a. induction l as [|b l IH] using rev_ind; intros a.
  - reflexivity.
  - change (a :: l ++ [b]) with ((a :: l) ++ [b]).
    rewrite rev_app_distr, last_last. reflexivity.
Qed.

Section SlabFacts.

Variable env : Env.
Variable P : Parameters.
Variable storeys : list Storey.

(** One round of the slab loop, for a storey that has a storey above. *)
Lemma create_storey_slab_ok (i : nat) (storey next : Storey) st :
  nth_error storeys (S i) = Some next ->
  exists slab st' r m,
    create_storey_slab env P storeys i storey st = Ok (slab, st')
    /\ (handle slab = next_handle st
        /\ class slab = IfcSlab
        /\ Name slab = slab_name storeys i
        /\ PredefinedType slab = Some (slab_type storeys i)
        /\ ObjectPlacement slab = floor_placement P next
        /\ Representation slab = floor_solid P)
    /\ (next_handle st' = S (next_handle st)
        /\ elements st' = elements st ++ [slab]
        /\ containments st' = containments st ++ [r]
        /\ material_associations st' = material_associations st ++ [m])
    /\ (RelatedElements r = [Some slab] /\ RelatingStructure r = next)
    /\ (rm_RelatedObjects m = [slab]
        /\ MaterialName (RelatingMaterial m) = slab_material_name i).
Proof.
  intros Hnext. unfold create_storey_slab.
  replace (i + 1) with (S i) by lia.
  unfold index. rewrite Hnext. cbn [lift].
  do 4 eexists. split; [reflexivity|].
  cbn. repeat split.
Qed.

(** The slab loop from index [k]: [nexts] lists the storeys above the
    ones in [l]. *)
Lemma slab_loop_ok (l nexts : list Storey) :
  List.length l = List.length nexts ->
  forall k st,
    (forall j, j < List.length l ->
               nth_error storeys (S (k + j)) = nth_error nexts j) ->
    exists slabs st' rels mats,
      mapM (fun '(i, storey) => create_storey_slab env P storeys i storey)
           (enumerate_from k l) st = Ok (slabs, st')
      /\ (map handle slabs = seq (next_handle st) (List.length l)
          /\ Forall (fun s => class s = IfcSlab) slabs
          /\ map Name slabs = map (slab_name storeys) (seq k (List.length l))
          /\ map PredefinedType slabs
             = map (fun i => Some (slab_type storeys i)) (seq k (List.length l))
          /\ map ObjectPlacement slabs = map (floor_placement P) nexts
          /\ Forall (fun s => Representation s = floor_solid P) slabs)
      /\ (next_handle st' = next_handle st + List.length l
          /\ elements st' = elements st ++ slabs
          /\ containments st' = containments st ++ rels
          /\ material_associations st' = material_associations st ++ mats)
      /\ (map RelatedElements rels = map (fun s => [Some s]) slabs
          /\ map RelatingStructure rels = nexts)
      /\ (map rm_RelatedObjects mats = map (fun s => [s]) slabs
          /\ map (fun m => MaterialName (RelatingMaterial m)) mats
             = map slab_material_name (seq k (List.length l))).
Proof.
  revert nexts. induction l as [|storey l IH]; intros [|next nexts] Hlen k st Hnth;
    try discriminate.
  - exists [], st, [], []. cbn. rewrite !app_nil_r, Nat.add_0_r.
    repeat split; constructor.
  - cbn [enumerate_from mapM].
    assert (H0 : nth_error storeys (S k) = Some next).
    { specialize (Hnth 0). rewrite Nat.add_0_r in Hnth. apply Hnth.
      cbn; lia. }
    destruct (create_storey_slab_ok k storey st H0)
      as (slab & st1 & r & m & Hrun & (Hh & Hc & Hn & Ht & Hp & Hs)
          & (Hnh & Hel & Hco & Hma) & (Hre & Hrs) & (Hmr & Hmn)).
    injection Hlen as Hlen.
    destruct (IH nexts Hlen (S k) st1)
      as (slabs & st' & rels & mats & Hrun' & (Hh' & Hc' & Hn' & Ht' & Hp' & Hs')
          & (Hnh' & Hel' & Hco' & Hma') & (Hre' & Hrs') & (Hmr' & Hmn')).
    { intros j Hj. specialize (Hnth (S j)).
      replace (k + S j) with (S k + j) in Hnth by lia.
      apply Hnth. cbn; lia. }
    exists (slab :: slabs), st', (r :: rels), (m :: mats).
    rewrite (bind_ok _ Hrun), (bind_ok _ Hrun').
    split; [reflexivity|].
    cbn [map seq List.length].
    rewrite Hh, Hn, Ht, Hp, Hh', Hn', Ht', Hp', Hnh, Hre, Hrs, Hre', Hrs',
      Hmr, Hmn, Hmr', Hmn'.
    rewrite Hnh', Hel', Hco', Hma', Hnh, Hel, Hco, Hma, <- !app_assoc.
    repeat split; try reflexivity; try (constructor; assumption); try lia.
Qed.

(** The whole of [create_slabs] on a list of at least one storey. *)
Lemma create_slabs_ok (s : Storey) (rest : list Storey) st :
  storeys = s :: rest ->
  exists interior roof st' rels mats rc rm,
    create_slabs env P storeys st = Ok (interior ++ [roof], st')
    /\ (map handle (interior ++ [roof])
          = seq (next_handle st) (List.length storeys)
        /\ Forall (fun s => class s = IfcSlab) (interior ++ [roof])
        /\ map Name interior
           = map (slab_name storeys) (seq 0 (List.length rest))
        /\ map PredefinedType interior
           = map (fun i => Some (slab_type storeys i))
                 (seq 0 (List.length rest))
        /\ map ObjectPlacement interior = map (floor_placement P) rest
        /\ Forall (fun s => Representation s = floor_solid P) interior)
    /\ (Name roof = "Roof Slab"
        /\ PredefinedType roof = Some "ROOF"
        /\ ObjectPlacement roof
           = axis_aligned (0, 0, Elevation (last rest s))%float
        /\ Representation roof = roof_solid P)
    /\ (next_handle st' = next_handle st + List.length storeys
        /\ elements st' = elements st ++ interior ++ [roof]
        /\ containments st' = containments st ++ rels ++ [rc]
        /\ material_associations st'
           = material_associations st ++ mats ++ [rm])
    /\ (map RelatedElements rels = map (fun s => [Some s]) interior
        /\ map RelatingStructure rels = rest
        /\ RelatedElements rc = [Some roof]
        /\ RelatingStructure rc = last rest s)
    /\ (map rm_RelatedObjects mats = map (fun s => [s]) interior
        /\ map (fun m => MaterialName (RelatingMaterial m)) mats
           = map slab_material_name (seq 0 (List.length rest))
        /\ rm_RelatedObjects rm = [roof]
        /\ RelatingMaterial rm
           = mkUsage "Roof Membrane" (convert_to_meter (ROOF_THICKNESS P))).
Proof.
  intros Hst.
  assert (Hlen : List.length (removelast storeys) = List.length rest).
  { rewrite length_removelast', Hst. cbn. lia. }
  destruct (slab_loop_ok (removelast storeys) rest Hlen 0 st)
    as (slabs & st1 & rels & mats & Hrun & (Hh & Hc & Hn & Ht & Hp & Hs)
        & (Hnh & Hel & Hco & Hma) & (Hre & Hrs) & (Hmr & Hmn)).
  { intros j _. rewrite Hst. reflexivity. }
  unfold create_slabs, enumerate.
  rewrite (bind_ok _ Hrun).
  assert (Hlast : lift (last_item storeys) st1 = Ok (last rest s, st1))
    by (rewrite Hst, last_item_cons; reflexivity).
  rewrite Hlen in *.
  exists slabs. do 2 eexists. exists rels, mats. do 2 eexists.
  split; [rewrite (bind_ok _ Hlast); reflexivity|].
  cbn [next_handle elements containments material_associations uuid_calls
       handle class Name PredefinedType ObjectPlacement Representation
       RelatedElements RelatingStructure rm_RelatedObjects RelatingMaterial].
  rewrite !map_app, Hh, Hn, Ht, Hp, Hnh, Hel, Hco, Hma, Hre, Hrs, Hmr, Hmn.
  rewrite <- !app_assoc, Hst. cbn [List.length map].
  replace (S (List.length rest)) with (List.length rest + 1) by lia.
  rewrite seq_app.
  repeat split; try reflexivity; try assumption; try lia.
  apply Forall_app. split; [assumption | repeat constructor].
Qed.

End SlabFacts.

Lemma nth_error_seq' (k n i : nat) :
  i < n -> nth_error (seq k n) i = Some (k + i).
Proof.
  revert k i. induction n as [|n IH]; intros k [|i] Hi; try lia; cbn.
  - now rewrite Nat.add_0_r.
  - rewrite IH by lia. f_equal. lia.
Qed.

(** Reading one position of two lists related by [map f l = map g l']. *)
Lemma map_eq_nth {A B C : Type} (f : A -> C) (g : B -> C) l l' i a :
  map f l = map g l' ->
  nth_error l i = Some a ->
  exists b, nth_error l' i = Some b /\ f a = g b.
Proof.
  intros Heq Ha.
  assert (H : nth_error (map g l') i = Some (f a)).
  { rewrite <- Heq. now apply map_nth_error. }
  rewrite nth_error_map in H.
  destruct (nth_error l' i) as [b|]; [|discriminate].
  exists b. split; [reflexivity|]. now injection H.
Qed.

Lemma nth_error_last {A : Type} (l : list A) (d x : A) :
  nth_error l (List.length l - 1) = Some x -> last l d = x.
Proof.
  induction l as [|a [|b l] IH]; cbn [List.length]; intros H.
  - discriminate.
  - cbn in H. now injection H.
  - change (last (a :: b :: l) d) with (last (b :: l) d). apply IH.
    cbn [List.length]. rewrite Nat.sub_succ, Nat.sub_0_r in *. exact H.
Qed.

(** Which interior slab carries the roof tag: on [n + 1] storeys, the
    slab of index [n - 1]. *)
Lemma below_roof_last (s : Storey) (rest : list Storey) (i : nat) :
  i < List.length rest ->
  below_roof (s :: rest) i = (i =? List.length rest - 1)%nat.
Proof.
  intros Hi. unfold below_roof. cbn [List.length].
  destruct (Nat.eqb_spec i (List.length rest - 1)) as [E|E].
  - apply Z.eqb_eq. lia.
  - apply Z.eqb_neq. lia.
Qed.

(** C3.  On a stack of storeys (the last one being the roof reference)
    [create_slabs] returns one interior slab for every storey but the
    last, the slab of storey [i] placed at [elevation[i+1]] minus the
    floor thickness and swept upwards by the floor thickness over the
    full footprint, followed by exactly one more slab, placed at the last
    storey's own elevation, swept by the roof thickness and associated
    with the "Roof Membrane" material: as many slabs as storeys, six for
    five occupied storeys and the roof reference.  For the script's
    values the top of every interior slab is within [1e-9] m of the
    elevation of the storey above. *)
Theorem create_slabs_floors_and_roof_cap :
  (forall env P (s : Storey) (rest : list Storey) st,
      let storeys := s :: rest in
      exists interior roof st' mats rm,
        create_slabs env P storeys st = Ok (interior ++ [roof], st')
        /\ List.length interior = List.length (removelast storeys)
        /\ List.length (interior ++ [roof]) = List.length storeys
        /\ map ObjectPlacement interior
           = map (fun next =>
                    axis_aligned
                      (0, 0, Elevation next
                             - convert_to_meter (FLOOR_THICKNESS P))%float)
                 (tl storeys)
        /\ Forall (fun e => Representation e = floor_solid P) interior
        /\ ObjectPlacement roof
           = axis_aligned (0, 0, Elevation (last storeys s))%float
        /\ Representation roof = roof_solid P
        /\ elements st' = elements st ++ interior ++ [roof]
        /\ material_associations st'
           = material_associations st ++ mats ++ [rm]
        /\ rm_RelatedObjects rm = [roof]
        /\ MaterialName (RelatingMaterial rm) = "Roof Membrane")
  /\ (forall env,
        exists b f,
          run env globals = Ok (b, f)
          /\ List.length (b_slabs b) = 6
          /\ all_close 1e-9 (map top_of (removelast (b_slabs b)))
                            (map Elevation (tl (b_storeys b))) = true).
Proof.
  split.
  - intros env P s rest st storeys.
    destruct (create_slabs_ok env P (storeys := storeys) st eq_refl)
      as (interior & roof & st' & rels & mats & rc & rm & Hrun
          & (Hh & Hc & Hn & Ht & Hp & Hs) & (Hrn & Hrt & Hrp & Hrs)
          & (Hnh & Hel & Hco & Hma) & _ & (Hmr & Hmn & Hrm & Hru)).
    exists interior, roof, st', mats, rm.
    assert (Hlen : List.length interior = List.length rest).
    { rewrite <- (length_map ObjectPlacement), Hp. apply length_map. }
    split; [exact Hrun|].
    split; [rewrite length_removelast'; subst storeys; cbn; lia|].
    split; [rewrite length_app; subst storeys; cbn; lia|].
    split; [exact Hp|].
    split; [exact Hs|].
    split.
    { rewrite Hrp. subst storeys. destruct rest; reflexivity. }
    repeat split; try assumption. now rewrite Hru.
  - intros env. do 2 eexists. split; [vm_compute; reflexivity|].
    split; vm_compute; reflexivity.
Qed.

(** C4, as the code has it.  Among the interior slabs that
    [create_slabs] builds on a stack of storeys, exactly the last one is
    named "Roof" with category ROOF: it is the slab built for the topmost
    occupied storey (index [len(storeys) - 2]), placed under the roof
    reference, one floor thickness below the reference's elevation.
    Every other interior slab, of index [i], is named "Floor i+1" with
    category FLOOR. *)
Theorem roof_tag_on_slab_under_roof_reference :
  forall env P (s : Storey) (rest : list Storey) st,
    let storeys := s :: rest in
    exists interior roof st',
      create_slabs env P storeys st = Ok (interior ++ [roof], st')
      /\ List.length interior = List.length storeys - 1
      /\ forall i slab,
           nth_error interior i = Some slab ->
           (i = List.length storeys - 2 ->
              Name slab = "Roof"
              /\ PredefinedType slab = Some "ROOF"
              /\ ObjectPlacement slab = floor_placement P (last storeys s))
           /\ (i <> List.length storeys - 2 ->
                 Name slab = ("Floor " ++ str (i + 1))%string
                 /\ PredefinedType slab = Some "FLOOR").
Proof.
  intros env P s rest st storeys.
  destruct (create_slabs_ok env P (storeys := storeys) st eq_refl)
    as (interior & roof & st' & rels & mats & rc & rm & Hrun
        & (Hh & Hc & Hn & Ht & Hp & Hs) & _).
  exists interior, roof, st'.
  assert (Hlen : List.length interior = List.length rest).
  { rewrite <- (length_map ObjectPlacement), Hp. apply length_map. }
  split; [exact Hrun|].
  split; [subst storeys; cbn; lia|].
  intros i slab Hi.
  assert (Hlt : i < List.length rest).
  { rewrite <- Hlen. apply nth_error_Some. congruence. }
  destruct (map_eq_nth _ _ _ _ _ Hn Hi) as (i1 & Hi1 & Hname).
  destruct (map_eq_nth _ _ _ _ _ Ht Hi) as (i2 & Hi2 & Htype).
  destruct (map_eq_nth _ _ _ _ _ Hp Hi) as (next & Hnext & Hplace).
  rewrite nth_error_seq' in Hi1, Hi2 by assumption.
  injection Hi1 as <-. injection Hi2 as <-. cbn [Nat.add] in *.
  unfold slab_name in Hname. unfold slab_type in Htype.
  subst storeys. rewrite below_roof_last in Hname, Htype by assumption.
  cbn [List.length]. replace (S (List.length rest) - 2)
    with (List.length rest - 1) by lia.
  split; intros E.
  - apply Nat.eqb_eq in E. rewrite E in Hname, Htype.
    repeat split; try assumption.
    rewrite Hplace. f_equal.
    apply Nat.eqb_eq in E. subst i.
    destruct rest as [|r rest]; [cbn in Hlt; lia|].
    change (last (s :: r :: rest) s) with (last (r :: rest) s).
    symmetry. now apply nth_error_last.
  - apply Nat.eqb_neq in E. rewrite E in Hname, Htype. now split.
Qed.

(** C4 as stated fails: in the script's own build the topmost occupied
    storey is "Fourth Floor", and the slab immediately below it, the one
    it stands on, registered in it and topped at its elevation, is
    "Floor 4" with category FLOOR.  The interior slab tagged ROOF lies a
    whole storey higher, under the roof reference. *)
Lemma fourth_floor_stands_on_a_floor_slab :
  exists b f top sentinel,
    run numbered globals = Ok (b, f)
    /\ nth_error (b_storeys b) 4 = Some top
    /\ nth_error (b_storeys b) 5 = Some sentinel
    /\ s_Name top = "Fourth Floor"
    /\ map (fun e => (Name e, PredefinedType e, ObjectPlacement e))
           (filter is_slab (contained_in f top))
       = [ ("Floor 4", Some "FLOOR", floor_placement globals top) ]
    /\ map (fun e => (Name e, PredefinedType e, ObjectPlacement e))
           (filter (fun e => negb (Name e =? "Roof Slab")%string)
                   (contained_in f sentinel))
       = [ ("Roof", Some "ROOF", floor_placement globals sentinel) ].
Proof.
  do 4 eexists. split; [vm_compute; reflexivity|].
  repeat split.
Qed.

(** C10, as the code has it.  [create_slabs] registers the interior slab
    of storey [i] in storey [i+1] and in no other, and the roof-cap slab
    in the last storey.  In a run of the script the basement therefore
    contains no slab, and the roof reference contains exactly two
    elements, both slabs: the interior slab below it, named "Roof", and
    the roof cap, named "Roof Slab". *)
Theorem slabs_registered_in_storey_above :
  (forall env P (s : Storey) (rest : list Storey) st,
      let storeys := s :: rest in
      exists interior roof st' rels rc,
        create_slabs env P storeys st = Ok (interior ++ [roof], st')
        /\ containments st' = containments st ++ rels ++ [rc]
        /\ map RelatedElements rels = map (fun e => [Some e]) interior
        /\ map RelatingStructure rels = tl storeys
        /\ RelatedElements rc = [Some roof]
        /\ RelatingStructure rc = last storeys s)
  /\ (forall env,
        exists b f basement sentinel,
          run env globals = Ok (b, f)
          /\ nth_error (b_storeys b) 0 = Some basement
          /\ last_item (b_storeys b) = Ok sentinel
          /\ filter is_slab (contained_in f basement) = []
          /\ contained_in f sentinel = skipn 4 (b_slabs b)
          /\ map Name (contained_in f sentinel) = ["Roof"; "Roof Slab"]).
Proof.
  split.
  - intros env P s rest st storeys.
    destruct (create_slabs_ok env P (storeys := storeys) st eq_refl)
      as (interior & roof & st' & rels & mats & rc & rm & Hrun
          & _ & _ & (Hnh & Hel & Hco & Hma) & (Hre & Hrs & Hrc & Hrl) & _).
    exists interior, roof, st', rels, rc.
    repeat split; try assumption.
    rewrite Hrl. subst storeys. destruct rest; reflexivity.
  - intros env. do 4 eexists. split; [vm_compute; reflexivity|].
    repeat split.
Qed.

(** C10 as stated fails: after a run the roof reference storey contains
    two elements, not one. *)
Lemma roof_reference_contains_two_slabs :
  exists b f sentinel,
    run numbered globals = Ok (b, f)
    /\ last_item (b_storeys b) = Ok sentinel
    /\ s_Name sentinel = "Roof"
    /\ List.length (contained_in f sentinel) = 2
    /\ map Name (contained_in f sentinel) = ["Roof"; "Roof Slab"].
Proof.
  do 3 eexists. split; [vm_compute; reflexivity|].
  repeat split.
Qed.

(* ================================================================== *)
(** ** Windows *)

(** With two openings or more the centred branch is not taken. *)
Lemma x_position_even (L w : float) (N j : nat) :
  2 <= N ->
  x_position L w N j
  = (L * float_of_nat (j + 1) / float_of_nat (N + 1) - w / 2)%float.
Proof.
  intros HN. unfold x_position.
  destruct (Nat.eqb_spec N 1) as [E|E]; [lia | reflexivity].
Qed.

Section WindowFacts.

Variable env : Env.
Variable P : Parameters.

(** A loop that creates one window per item of [js]. *)
Lemma window_loop_ok (name : nat -> string) (pos : nat -> Point3)
    (w h : float) (js : list nat) st :
  exists ws st',
    mapM (fun j => create_window env P (name j) (pos j) w h) js st
    = Ok (ws, st')
    /\ map location_of ws = map pos js
    /\ Forall (fun e => class e = IfcWindow) ws.
Proof.
  revert st. induction js as [|j js IH]; intros st.
  - exists [], st. repeat split. constructor.
  - cbn [mapM].
    assert (Hw : exists e st1,
               create_window env P (name j) (pos j) w h st = Ok (e, st1)
               /\ location_of e = pos j /\ class e = IfcWindow)
      by (do 2 eexists; split; [reflexivity | split; reflexivity]).
    destruct Hw as (e & st1 & Hrun & Hloc & Hcl).
    destruct (IH st1) as (ws & st' & Hrun' & Hlocs & Hcls).
    exists (e :: ws), st'.
    rewrite (bind_ok _ Hrun), (bind_ok _ Hrun').
    split; [reflexivity|]. cbn [map]. rewrite Hloc, Hlocs.
    split; [reflexivity | now constructor].
Qed.

(** One facade of one storey. *)
Lemma create_facade_windows_ok (facade : string) (y L w h sill : float)
    (N i : nat) (elev : float) st :
  2 <= N ->
  exists ws st',
    create_facade_windows env P facade y L w h sill N i elev st = Ok (ws, st')
    /\ map location_of ws = evenly_spaced L w N y (elev + sill)%float
    /\ Forall (fun e => class e = IfcWindow) ws.
Proof.
  intros HN. unfold create_facade_windows, range, evenly_spaced.
  rewrite Nat.sub_0_r.
  destruct (window_loop_ok
              (fun j => (facade ++ " Window " ++ str i ++ "-" ++ str j)%string)
              (fun j => (x_position L w N j, y, elev + sill)%float)
              w h (seq 0 N) st)
    as (ws & st' & Hrun & Hloc & Hcl).
  exists ws, st'. split; [exact Hrun|]. split; [|exact Hcl].
  rewrite Hloc. apply map_ext. intros j.
  now rewrite x_position_even.
Qed.

(** The storeys the two tables of window sizes cover. *)
Lemma window_tables_cover (i : nat) :
  i <= 4 ->
  exists w h,
    getitem window_widths i = Ok w /\ getitem window_heights i = Ok h.
Proof.
  intros Hi.
  do 5 (destruct i as [|i]; [do 2 eexists; split; reflexivity|]). lia.
Qed.

(** One round of the window loop. *)
Lemma create_storey_windows_ok (i : nat) (storey : Storey) st :
  i <= 4 ->
  exists ws st',
    create_storey_windows env P i storey st = Ok (ws, st')
    /\ map location_of ws = expected_window_locations P i storey
    /\ Forall (fun e => class e = IfcWindow) ws.
Proof.
  intros Hi. unfold create_storey_windows, expected_window_locations.
  assert (HN : 2 <= window_count_of i)
    by (unfold window_count_of; destruct (i =? 0)%nat; lia).
  unfold window_width_of. fold (window_count_of i).
  destruct (window_tables_cover Hi) as (w & h & Hw & Hh).
  rewrite Hw, Hh.
  destruct (create_facade_windows_ok "Front" 0
              (convert_to_meter (BUILDING_WIDTH P)) (convert_to_meter w)
              (convert_to_meter h) (convert_to_meter 3.0) i
              (Elevation storey) st HN)
    as (front & st1 & Hf & Hfl & Hfc).
  destruct (create_facade_windows_ok "Back"
              (convert_to_meter (BUILDING_DEPTH P))
              (convert_to_meter (BUILDING_WIDTH P)) (convert_to_meter w)
              (convert_to_meter h) (convert_to_meter 3.0) i
              (Elevation storey) st1 HN)
    as (back & st2 & Hb & Hbl & Hbc).
  do 2 eexists. split.
  { rewrite !bind_lift, (bind_ok _ Hf), (bind_ok _ Hb). reflexivity. }
  rewrite map_app, Hfl, Hbl. split; [reflexivity|].
  apply Forall_app. now split.
Qed.

(** The window loop from index [k]. *)
Lemma window_loop_storeys_ok (l : list Storey) (k : nat) st :
  k + List.length l <= 5 ->
  exists per_storey st',
    mapM (fun '(i, storey) => create_storey_windows env P i storey)
         (enumerate_from k l) st = Ok (per_storey, st')
    /\ map (map location_of) per_storey
       = map (fun '(i, storey) => expected_window_locations P i storey)
             (enumerate_from k l)
    /\ Forall (Forall (fun e => class e = IfcWindow)) per_storey.
Proof.
  revert k st. induction l as [|storey l IH]; intros k st Hk.
  - exists [], st. repeat split. constructor.
  - cbn [List.length] in Hk. cbn [enumerate_from mapM].
    destruct (create_storey_windows_ok (i:=k) storey st) as (ws & st1 & Hrun & Hl & Hc);
      [lia|].
    destruct (IH (S k) st1) as (per & st' & Hrun' & Hl' & Hc'); [lia|].
    exists (ws :: per), st'.
    rewrite (bind_ok _ Hrun), (bind_ok _ Hrun').
    split; [reflexivity|]. cbn [map]. rewrite Hl, Hl'.
    split; [reflexivity | now constructor].
Qed.

End WindowFacts.

(** C5.  On a stack of at most six storeys [create_windows] gives every
    storey but the last, on the front facade ([y = 0]) and identically on
    the back facade ([y = depth]), [N] windows of that storey's width
    [w], window [j] at [x = L * (j+1) / (N+1) - w/2] for [j = 0 .. N-1],
    where [L] is the building width and [N] is 2 in the basement and 3
    above; for [N = 3] these are [L*1/4 - w/2], [L*2/4 - w/2] and
    [L*3/4 - w/2].  In the script's own run the windows of the four
    floors stand at exactly [L/4 - w/2], [L/2 - w/2] and [3L/4 - w/2]. *)
Theorem create_windows_evenly_spaced :
  forall env P (storeys : list Storey) st,
    List.length storeys <= 6 ->
    (exists per_storey st',
        create_windows env P storeys st = Ok (List.concat per_storey, st')
        /\ map (map location_of) per_storey
           = map (fun '(i, storey) =>
                    let L := convert_to_meter (BUILDING_WIDTH P) in
                    let z := (Elevation storey + convert_to_meter 3.0)%float in
                    let N := if (i =? 0)%nat then 2 else 3 in
                    evenly_spaced L (window_width_of i) N 0%float z
                    ++ evenly_spaced L (window_width_of i) N
                         (convert_to_meter (BUILDING_DEPTH P)) z)
                 (enumerate (removelast storeys)))
    /\ (forall L w y z,
          evenly_spaced L w 3 y z
          = [ (L * 1 / 4 - w / 2, y, z); (L * 2 / 4 - w / 2, y, z);
              (L * 3 / 4 - w / 2, y, z) ]%float)
    /\ (exists b f,
          run env globals = Ok (b, f)
          /\ map location_of (skipn 4 (b_windows b))
             = flat_map
                 (fun '(i, storey) =>
                    let L := convert_to_meter (BUILDING_WIDTH globals) in
                    let w := window_width_of i in
                    let z := (Elevation storey + convert_to_meter 3.0)%float in
                    flat_map
                      (fun y => [ (L / 4 - w / 2, y, z);
                                  (L / 2 - w / 2, y, z);
                                  (3 * L / 4 - w / 2, y, z) ]%float)
                      [ 0%float; convert_to_meter (BUILDING_DEPTH globals) ])
                 (tl (enumerate (removelast (b_storeys b))))).
Proof.
  intros env P storeys st Hlen. split; [|split].
  - destruct (window_loop_storeys_ok env P (removelast storeys) 0 st)
      as (per & st' & Hrun & Hl & _).
    { rewrite length_removelast'. lia. }
    exists per, st'. unfold create_windows, enumerate.
    rewrite (bind_ok _ Hrun). split; [reflexivity|]. exact Hl.
  - intros L w y z. reflexivity.
  - do 2 eexists. split; [vm_compute; reflexivity|].
    vm_compute. reflexivity.
Qed.

(** The theorem applies to the six storeys of the script. *)
Lemma create_windows_evenly_spaced_witness :
  List.length sample_storeys <= 6
  /\ exists per_storey st',
       create_windows numbered globals sample_storeys empty_file
       = Ok (List.concat per_storey, st')
       /\ map (map location_of) per_storey
          = map (fun '(i, storey) =>
                   expected_window_locations globals i storey)
                (enumerate (removelast sample_storeys)).
Proof.
  assert (H : List.length sample_storeys <= 6) by (vm_compute; lia).
  split; [exact H|].
  exact (proj1 (create_windows_evenly_spaced numbered globals
                  sample_storeys empty_file H)).
Defined.

(* ================================================================== *)
(** ** Binary64 facts behind the zero-length test *)

Unset Implicit Arguments.

Module FloatFacts.

Lemma finite_not_nan (x : float) :
  PrimFloat.is_finite x = true -> Prim2SF x <> S754_nan.
Proof.
  unfold PrimFloat.is_finite, PrimFloat.is_nan. intros H E.
  rewrite FloatAxioms.eqb_spec, E in H. discriminate H.
Qed.

Lemma finite_not_infinity (x : float) (s : bool) :
  PrimFloat.is_finite x = true -> Prim2SF x <> S754_infinity s.
Proof.
  unfold PrimFloat.is_finite, PrimFloat.is_infinity. intros H E.
  rewrite (FloatAxioms.eqb_spec (abs x)), FloatAxioms.abs_spec, E in H.
  rewrite orb_true_r in H. discriminate H.
Qed.

(** Equal finite floats are two zeros or the same number. *)
Lemma eqb_finite_inv (x y : float) :
  PrimFloat.is_finite x = true ->
  (x =? y)%float = true ->
  (exists sx sy, Prim2SF x = S754_zero sx /\ Prim2SF y = S754_zero sy)
  \/ (exists s m e, Prim2SF x = S754_finite s m e
                    /\ Prim2SF y = S754_finite s m e).
Proof.
  intros Hfin Heq.
  pose proof (finite_not_nan x Hfin) as Hnan.
  pose proof (fun s => finite_not_infinity x s Hfin) as Hinf.
  rewrite FloatAxioms.eqb_spec in Heq. unfold SFeqb, SFcompare in Heq.
  destruct (Prim2SF x) as [sx|sx| |sx mx ex];
    [ | exfalso; now apply (Hinf sx) | exfalso; now apply Hnan | ].
  - left. destruct (Prim2SF y) as [sy|sy| |sy my ey].
    + now exists sx, sy.
    + destruct sy; discriminate.
    + discriminate.
    + destruct sy; discriminate.
  - right. destruct (Prim2SF y) as [sy|sy| |sy my ey].
    + destruct sx; discriminate.
    + destruct sy; discriminate.
    + discriminate.
    + exists sx, mx, ex. split; [reflexivity|].
      destruct sy, sx; try discriminate;
        destruct (Z.compare_spec ex ey) as [E|E|E]; try discriminate;
        fold (Pos.compare mx my) in Heq;
        destruct (Pos.compare_spec mx my) as [E'|E'|E']; try discriminate;
        now subst.
Qed.

(** The difference of two equal finite floats is a zero. *)
Lemma sub_of_equal (x y : float) :
  PrimFloat.is_finite x = true ->
  (x =? y)%float = true ->
  (y - x)%float = 0%float \/ (y - x)%float = (-0)%float.
Proof.
  intros Hfin Heq.
  assert (H : exists s, Prim2SF (y - x) = S754_zero s).
  { rewrite FloatAxioms.sub_spec. unfold SF64sub.
    destruct (eqb_finite_inv x y Hfin Heq)
      as [(sx & sy & Hx & Hy) | (s & m & e & Hx & Hy)]; rewrite Hx, Hy.
    - destruct sx, sy; cbn; eauto.
    - exists false. unfold SFsub. rewrite Z.sub_diag. reflexivity. }
  destruct H as (s & Hs).
  rewrite <- (SF2Prim_Prim2SF (y - x)), Hs.
  destruct s; [right | left]; reflexivity.
Qed.

End FloatFacts.


(* ================================================================== *)
(** ** Walls *)

(** A request between two equal points with finite plan coordinates has
    computed length zero. *)
Lemma segment_length_degenerate (start_point end_point : Point3) :
  finite_in_plan start_point = true ->
  points_equal start_point end_point = true ->
  segment_length start_point end_point = Ok 0%float.
Proof.
  destruct start_point as [[sx sy] sz], end_point as [[ex ey] ez].
  unfold finite_in_plan, points_equal. intros Hfin Heq.
  apply andb_true_iff in Hfin as [Hfx Hfy].
  apply andb_true_iff in Heq as [Heq _].
  apply andb_true_iff in Heq as [Hx Hy].
  unfold segment_length.
  destruct (FloatFacts.sub_of_equal sx ex Hfx Hx) as [Ex|Ex];
    destruct (FloatFacts.sub_of_equal sy ey Hfy Hy) as [Ey|Ey];
    rewrite Ex, Ey; reflexivity.
Qed.

Section WallFacts.

Variable env : Env.
Variable P : Parameters.

Variable name : string.
Variables start_point end_point : Point3.
Variables thickness height : float.
Variable usage : MaterialLayerSetUsage.

(** The request is dropped when its computed length is zero: nothing is
    created, no identifier is drawn. *)
Lemma create_wall_zero_length (len : float) st :
  segment_length start_point end_point = Ok len ->
  (len =? 0)%float = true ->
  create_wall env name start_point end_point thickness height usage st
  = Ok (None, st).
Proof.
  intros Hlen Hz. unfold create_wall.
  destruct start_point as [[sx sy] sz], end_point as [[ex ey] ez].
  rewrite Hlen, bind_lift, Hz. reflexivity.
Qed.

(** An overflow in the squares is not caught. *)
Lemma create_wall_overflow (e : Error) st :
  segment_length start_point end_point = Raise e ->
  create_wall env name start_point end_point thickness height usage st
  = Raise e.
Proof.
  intros Hlen. unfold create_wall.
  destruct start_point as [[sx sy] sz], end_point as [[ex ey] ez].
  rewrite Hlen. reflexivity.
Qed.

(** A request of non-zero computed length adds one wall and its material
    association, and no containment relation. *)
Lemma create_wall_proper (len : float) st :
  segment_length start_point end_point = Ok len ->
  (len =? 0)%float = false ->
  exists wall st' m,
    create_wall env name start_point end_point thickness height usage st
    = Ok (Some wall, st')
    /\ (handle wall = next_handle st
        /\ class wall = IfcWallStandardCase
        /\ Name wall = name
        /\ wall_span wall = (start_point, len)
        /\ Depth (Representation wall) = height)
    /\ (next_handle st' = S (next_handle st)
        /\ elements st' = elements st ++ [wall]
        /\ containments st' = containments st
        /\ material_associations st' = material_associations st ++ [m])
    /\ (rm_RelatedObjects m = [wall] /\ RelatingMaterial m = usage).
Proof.
  intros Hlen Hz. unfold create_wall.
  destruct start_point as [[sx sy] sz], end_point as [[ex ey] ez].
  rewrite Hlen, bind_lift, Hz.
  do 3 eexists. split; [reflexivity|].
  cbn. repeat split.
Qed.

End WallFacts.




Lemma proper_segment_inv (name : string) (a b : Point3) :
  proper_segment (name, a, b) = true ->
  exists len,
    segment_length a b = Ok len /\ (len =? 0)%float = false.
Proof.
  unfold proper_segment.
  destruct (segment_length a b) as [len|e]; [|discriminate].
  intros H. exists len. split; [reflexivity|].
  now apply negb_true_iff in H.
Qed.

Section StoreyWalls.

Variable env : Env.
Variable P : Parameters.
Hypothesis Hfoot : footprint_proper P = true.

(** The table of wall heights covers the five occupied storeys. *)
Lemma wall_heights_cover (i : nat) :
  i <= 4 -> exists h, index (wall_heights P) i = Ok h.
Proof.
  intros Hi. do 5 (destruct i as [|i]; [eexists; reflexivity|]). lia.
Qed.

(** The wall lines are proper at every height: the length of a request
    does not depend on its height. *)
Lemma footprint_proper_at (z : float) :
  forallb proper_segment
    (storey_segments 1 (convert_to_meter (BUILDING_WIDTH P))
                     (convert_to_meter (BUILDING_DEPTH P)) z) = true.
Proof. exact Hfoot. Qed.

(** One round of the wall loop in the basement. *)
Lemma create_basement_walls_ok (storey : Storey) st :
  exists walls st' r,
    create_storey_walls env P 0 storey st = Ok (walls, st')
    /\ map wall_view walls
       = map expected_view
             (storey_segments 0 (convert_to_meter (BUILDING_WIDTH P))
                              (convert_to_meter (BUILDING_DEPTH P))
                              (Elevation storey))
    /\ forallb is_some_wall walls = true
    /\ containments st' = containments st ++ [r]
    /\ RelatedElements r = walls
    /\ RelatingStructure r = storey.
Proof.
  pose proof (footprint_proper_at (Elevation storey)) as H.
  set (z := Elevation storey) in *.
  set (w := convert_to_meter (BUILDING_WIDTH P)) in *.
  set (d := convert_to_meter (BUILDING_DEPTH P)) in *.
  set (t := convert_to_meter (WALL_THICKNESS P)).
  set (h := convert_to_meter (BASEMENT_HEIGHT P)).
  cbn [storey_segments perimeter_segments interior_segments Nat.ltb Nat.leb
       app forallb] in H.
  apply andb_true_iff in H as [H1 H]. apply andb_true_iff in H as [H2 H].
  apply andb_true_iff in H as [H3 H]. apply andb_true_iff in H as [H4 _].
  destruct (proper_segment_inv "Front Wall" (0, 0, z)%float (w, 0, z)%float H1)
    as (len1 & L1 & Z1).
  destruct (create_wall_proper env "Front Wall" (0, 0, z)%float (w, 0, z)%float t h
              (mkUsage (wall_material_name 0) (convert_to_meter (WALL_THICKNESS P))) len1 st L1 Z1)
    as (w1 & st1 & m1 & R1 & (_ & C1 & N1 & S1 & _)
        & (_ & _ & Co1 & _) & _).
  destruct (proper_segment_inv "Back Wall" (0, d, z)%float (w, d, z)%float H2)
    as (len2 & L2 & Z2).
  destruct (create_wall_proper env "Back Wall" (0, d, z)%float (w, d, z)%float t h
              (mkUsage (wall_material_name 0) (convert_to_meter (WALL_THICKNESS P))) len2 st1 L2 Z2)
    as (w2 & st2 & m2 & R2 & (_ & C2 & N2 & S2 & _)
        & (_ & _ & Co2 & _) & _).
  destruct (proper_segment_inv "Left Wall" (0, 0, z)%float (0, d, z)%float H3)
    as (len3 & L3 & Z3).
  destruct (create_wall_proper env "Left Wall" (0, 0, z)%float (0, d, z)%float t h
              (mkUsage (wall_material_name 0) (convert_to_meter (WALL_THICKNESS P))) len3 st2 L3 Z3)
    as (w3 & st3 & m3 & R3 & (_ & C3 & N3 & S3 & _)
        & (_ & _ & Co3 & _) & _).
  destruct (proper_segment_inv "Right Wall" (w, 0, z)%float (w, d, z)%float H4)
    as (len4 & L4 & Z4).
  destruct (create_wall_proper env "Right Wall" (w, 0, z)%float (w, d, z)%float t h
              (mkUsage (wall_material_name 0) (convert_to_meter (WALL_THICKNESS P))) len4 st3 L4 Z4)
    as (w4 & st4 & m4 & R4 & (_ & C4 & N4 & S4 & _)
        & (_ & _ & Co4 & _) & _).
  do 3 eexists. split.
  { unfold create_storey_walls. cbn [wall_heights index nth_error].
    rewrite bind_lift. fold z w d t h.
    rewrite (bind_ok _ R1), (bind_ok _ R2), (bind_ok _ R3), (bind_ok _ R4).
    reflexivity. }
  cbn [map wall_view option_map expected_view storey_segments
       perimeter_segments Nat.ltb Nat.leb app forallb is_some_wall is_wall
       containments RelatedElements RelatingStructure].
  rewrite N1, S1, L1.
  rewrite N2, S2, L2.
  rewrite N3, S3, L3.
  rewrite N4, S4, L4.
  unfold is_wall. rewrite C1, C2, C3, C4, Co4, Co3, Co2, Co1.
  repeat split.
Qed.

(** One round of the wall loop above the basement. *)
Lemma create_floor_walls_ok (i : nat) (storey : Storey) st :
  1 <= i <= 4 ->
  exists walls st' r,
    create_storey_walls env P i storey st = Ok (walls, st')
    /\ map wall_view walls
       = map expected_view
             (storey_segments i (convert_to_meter (BUILDING_WIDTH P))
                              (convert_to_meter (BUILDING_DEPTH P))
                              (Elevation storey))
    /\ forallb is_some_wall walls = true
    /\ containments st' = containments st ++ [r]
    /\ RelatedElements r = walls
    /\ RelatingStructure r = storey.
Proof.
  intros Hi.
  destruct (wall_heights_cover i) as (hf & Hidx); [lia|].
  pose proof (footprint_proper_at (Elevation storey)) as H.
  set (z := Elevation storey) in *.
  set (w := convert_to_meter (BUILDING_WIDTH P)) in *.
  set (d := convert_to_meter (BUILDING_DEPTH P)) in *.
  set (t := convert_to_meter (WALL_THICKNESS P)).
  set (h := convert_to_meter hf).
  set (u := mkUsage (wall_material_name i) t).
  cbn [storey_segments perimeter_segments interior_segments Nat.ltb Nat.leb
       app forallb] in H.
  apply andb_true_iff in H as [H1 H]. apply andb_true_iff in H as [H2 H].
  apply andb_true_iff in H as [H3 H]. apply andb_true_iff in H as [H4 H].
  apply andb_true_iff in H as [H5 H]. apply andb_true_iff in H as [H6 H].
  apply andb_true_iff in H as [H7 _].
  destruct (proper_segment_inv "Front Wall" (0, 0, z)%float (w, 0, z)%float H1)
    as (len1 & L1 & Z1).
  destruct (create_wall_proper env "Front Wall" (0, 0, z)%float (w, 0, z)%float t h
              u len1 st L1 Z1)
    as (w1 & st1 & m1 & R1 & (_ & C1 & N1 & S1 & _)
        & (_ & _ & Co1 & _) & _).
  destruct (proper_segment_inv "Back Wall" (0, d, z)%float (w, d, z)%float H2)
    as (len2 & L2 & Z2).
  destruct (create_wall_proper env "Back Wall" (0, d, z)%float (w, d, z)%float t h
              u len2 st1 L2 Z2)
    as (w2 & st2 & m2 & R2 & (_ & C2 & N2 & S2 & _)
        & (_ & _ & Co2 & _) & _).
  destruct (proper_segment_inv "Left Wall" (0, 0, z)%float (0, d, z)%float H3)
    as (len3 & L3 & Z3).
  destruct (create_wall_proper env "Left Wall" (0, 0, z)%float (0, d, z)%float t h
              u len3 st2 L3 Z3)
    as (w3 & st3 & m3 & R3 & (_ & C3 & N3 & S3 & _)
        & (_ & _ & Co3 & _) & _).
  destruct (proper_segment_inv "Right Wall" (w, 0, z)%float (w, d, z)%float H4)
    as (len4 & L4 & Z4).
  destruct (create_wall_proper env "Right Wall" (w, 0, z)%float (w, d, z)%float t h
              u len4 st3 L4 Z4)
    as (w4 & st4 & m4 & R4 & (_ & C4 & N4 & S4 & _)
        & (_ & _ & Co4 & _) & _).
  destruct (proper_segment_inv "Corridor Wall" (0, d / 2, z)%float (w, d / 2, z)%float H5)
    as (len5 & L5 & Z5).
  destruct (create_wall_proper env "Corridor Wall" (0, d / 2, z)%float (w, d / 2, z)%float t h
              u len5 st4 L5 Z5)
    as (w5 & st5 & m5 & R5 & (_ & C5 & N5 & S5 & _)
        & (_ & _ & Co5 & _) & _).
  destruct (proper_segment_inv "Cross Wall 1" (w / 3 * 1, 0, z)%float (w / 3 * 1, d, z)%float H6)
    as (len6 & L6 & Z6).
  destruct (create_wall_proper env "Cross Wall 1" (w / 3 * 1, 0, z)%float (w / 3 * 1, d, z)%float t h
              u len6 st5 L6 Z6)
    as (w6 & st6 & m6 & R6 & (_ & C6 & N6 & S6 & _)
        & (_ & _ & Co6 & _) & _).
  destruct (proper_segment_inv "Cross Wall 2" (w / 3 * 2, 0, z)%float (w / 3 * 2, d, z)%float H7)
    as (len7 & L7 & Z7).
  destruct (create_wall_proper env "Cross Wall 2" (w / 3 * 2, 0, z)%float (w / 3 * 2, d, z)%float t h
              u len7 st6 L7 Z7)
    as (w7 & st7 & m7 & R7 & (_ & C7 & N7 & S7 & _)
        & (_ & _ & Co7 & _) & _).
  assert (Hpos : (0 <? i)%nat = true) by (apply Nat.ltb_lt; lia).
  do 3 eexists. split.
  { unfold create_storey_walls. rewrite Hidx, bind_lift. fold z w d t h. fold u.
    rewrite (bind_ok _ R1), (bind_ok _ R2), (bind_ok _ R3), (bind_ok _ R4).
    rewrite Hpos.
    cbn [range Nat.sub seq mapM].
    change (float_of_nat 1) with 1%float.
    change (float_of_nat 2) with 2%float.
    change ("Cross Wall " ++ str 1)%string with "Cross Wall 1".
    change ("Cross Wall " ++ str 2)%string with "Cross Wall 2".
    rewrite !bind_assoc, (bind_ok _ R5).
    rewrite !bind_assoc, (bind_ok _ R6).
    rewrite !bind_assoc, (bind_ok _ R7).
    reflexivity. }
  unfold storey_segments. rewrite Hpos.
  cbn [map wall_view option_map expected_view
       perimeter_segments interior_segments app forallb is_some_wall is_wall
       containments RelatedElements RelatingStructure].
  rewrite N1, S1, L1.
  rewrite N2, S2, L2.
  rewrite N3, S3, L3.
  rewrite N4, S4, L4.
  rewrite N5, S5, L5.
  rewrite N6, S6, L6.
  rewrite N7, S7, L7.
  unfold is_wall.
  rewrite C1, C2, C3, C4, C5, C6, C7, Co7, Co6, Co5, Co4, Co3, Co2, Co1.
  repeat split.
Qed.

End StoreyWalls.

Section WallLoop.

Variable env : Env.
Variable P : Parameters.
Hypothesis Hfoot : footprint_proper P = true.

(** One round of the wall loop, on any occupied storey. *)
Lemma create_storey_walls_ok (i : nat) (storey : Storey) st :
  i <= 4 ->
  exists walls st' r,
    create_storey_walls env P i storey st = Ok (walls, st')
    /\ map wall_view walls
       = map expected_view
             (storey_segments i (convert_to_meter (BUILDING_WIDTH P))
                              (convert_to_meter (BUILDING_DEPTH P))
                              (Elevation storey))
    /\ forallb is_some_wall walls = true
    /\ containments st' = containments st ++ [r]
    /\ RelatedElements r = walls
    /\ RelatingStructure r = storey.
Proof.
  intros Hi. destruct i as [|i].
  - now apply create_basement_walls_ok.
  - apply create_floor_walls_ok; [assumption | lia].
Qed.

(** The wall loop from index [k]. *)
Lemma wall_loop_ok (l : list Storey) (k : nat) st :
  k + List.length l <= 5 ->
  exists per_storey st' rels,
    mapM (fun '(i, storey) => create_storey_walls env P i storey)
         (enumerate_from k l) st = Ok (per_storey, st')
    /\ map (map wall_view) per_storey
       = map (fun '(i, storey) =>
                map expected_view
                    (storey_segments i (convert_to_meter (BUILDING_WIDTH P))
                                     (convert_to_meter (BUILDING_DEPTH P))
                                     (Elevation storey)))
             (enumerate_from k l)
    /\ Forall (fun ws => forallb is_some_wall ws = true) per_storey
    /\ containments st' = containments st ++ rels
    /\ map RelatedElements rels = per_storey
    /\ map RelatingStructure rels = l.
Proof.
  revert k st. induction l as [|storey l IH]; intros k st Hk.
  - exists [], st, []. rewrite app_nil_r. repeat split. constructor.
  - cbn [List.length] in Hk. cbn [enumerate_from mapM].
    destruct (create_storey_walls_ok k storey st)
      as (ws & st1 & r & Hrun & Hv & Hw & Hco & Hre & Hrs); [lia|].
    destruct (IH (S k) st1)
      as (per & st' & rels & Hrun' & Hv' & Hw' & Hco' & Hre' & Hrs'); [lia|].
    exists (ws :: per), st', (r :: rels).
    rewrite (bind_ok _ Hrun), (bind_ok _ Hrun').
    split; [reflexivity|]. cbn [map].
    rewrite Hv, Hv', Hco', Hco, Hre, Hre', Hrs, Hrs', <- app_assoc.
    repeat split. now constructor.
Qed.

End WallLoop.

Lemma length_concat_views {A B : Type} (f : A -> B) (per : list (list A))
    (expected : list (list B)) :
  map (map f) per = expected ->
  List.length (List.concat per) = list_sum (map (@List.length B) expected).
Proof.
  intros <-. rewrite length_concat, !map_map. f_equal.
  apply map_ext. intros l. now rewrite length_map.
Qed.

(** C2.  On a stack of at most six storeys, for parameters whose seven
    wall lines have a non-zero computed length, [create_walls] gives
    every storey but the last four perimeter walls, from corner to corner
    of the footprint, and every such storey above the basement one
    corridor wall at half the depth and two cross walls at one and two
    thirds of the width.  The walls of a storey are registered in that
    storey in one relation, and no relation is made for the last storey.
    On six storeys this makes 4 + 4 * 7 = 32 walls.  In the script's own
    run the 32 walls are all created, the perimeter and corridor walls
    run the full width along X and the others the full depth along Y,
    and the roof reference owns no wall. *)
Theorem create_walls_perimeter_and_interior :
  forall env P (storeys : list Storey) st,
    List.length storeys <= 6 ->
    footprint_proper P = true ->
    (exists per_storey st' rels,
        create_walls env P storeys st = Ok (List.concat per_storey, st')
        /\ map (map wall_view) per_storey
           = map (fun '(i, storey) =>
                    let w := convert_to_meter (BUILDING_WIDTH P) in
                    let d := convert_to_meter (BUILDING_DEPTH P) in
                    let z := Elevation storey in
                    map expected_view
                        (perimeter_segments w d z
                         ++ (if (0 <? i)%nat then interior_segments w d z
                             else [])))
                 (enumerate (removelast storeys))
        /\ Forall (fun ws => forallb is_some_wall ws = true) per_storey
        /\ containments st' = containments st ++ rels
        /\ map RelatedElements rels = per_storey
        /\ map RelatingStructure rels = removelast storeys
        /\ (List.length storeys = 6 ->
            List.length (List.concat per_storey) = 32))
    /\ (exists b f sentinel,
          run env globals = Ok (b, f)
          /\ List.length (b_walls b) = 32
          /\ forallb is_some_wall (b_walls b) = true
          /\ map (option_map wall_frame) (firstn 7 (skipn 4 (b_walls b)))
             = (let w := convert_to_meter (BUILDING_WIDTH globals) in
                let d := convert_to_meter (BUILDING_DEPTH globals) in
                map Some
                  [ ("Front Wall", (0, 0, 0), (1, 0, 0), w);
                    ("Back Wall", (0, d, 0), (1, 0, 0), w);
                    ("Left Wall", (0, 0, 0), (0, 1, 0), d);
                    ("Right Wall", (w, 0, 0), (0, 1, 0), d);
                    ("Corridor Wall", (0, d / 2, 0), (1, 0, 0), w);
                    ("Cross Wall 1", (w / 3, 0, 0), (0, 1, 0), d);
                    ("Cross Wall 2", (2 * w / 3, 0, 0), (0, 1, 0), d) ]%float)
          /\ last_item (b_storeys b) = Ok sentinel
          /\ contained_in f sentinel = skipn 4 (b_slabs b)
          /\ filter is_wall (contained_in f sentinel) = []).
Proof.
  intros env P storeys st Hlen Hfoot. split.
  - destruct (wall_loop_ok env P Hfoot (removelast storeys) 0 st)
      as (per & st' & rels & Hrun & Hv & Hw & Hco & Hre & Hrs).
    { rewrite length_removelast'. lia. }
    exists per, st', rels. unfold create_walls, enumerate.
    rewrite (bind_ok _ Hrun).
    repeat (split; [first [reflexivity | assumption]|]).
    intros H6. rewrite (length_concat_views _ _ _ Hv).
    destruct storeys as [|s0 [|s1 [|s2 [|s3 [|s4 [|s5 [|s6 rest]]]]]]];
      try discriminate H6.
    reflexivity.
  - do 3 eexists. split; [vm_compute; reflexivity|].
    repeat split.
Qed.

(** The theorem applies to the script's parameters and six storeys. *)
Lemma create_walls_perimeter_and_interior_witness :
  List.length sample_storeys <= 6
  /\ footprint_proper globals = true
  /\ exists per_storey st' rels,
       create_walls numbered globals sample_storeys empty_file
       = Ok (List.concat per_storey, st')
       /\ containments st' = containments empty_file ++ rels
       /\ map RelatingStructure rels = removelast sample_storeys
       /\ List.length (List.concat per_storey) = 32.
Proof.
  assert (H : List.length sample_storeys <= 6) by (vm_compute; lia).
  assert (F : footprint_proper globals = true) by (vm_compute; reflexivity).
  split; [exact H|]. split; [exact F|].
  destruct (proj1 (create_walls_perimeter_and_interior numbered globals
                     sample_storeys empty_file H F))
    as (per & st' & rels & Hrun & _ & _ & Hco & _ & Hrs & H32).
  exists per, st', rels. repeat split; try assumption.
  apply H32. reflexivity.
Defined.
(* ================================================================== *)
(** ** Runs with different identifiers *)

Module Sim.

Lemma file_shape_inv (st1 st2 : IfcFile) :
  erase_file st1 = erase_file st2 ->
  next_handle st1 = next_handle st2
  /\ uuid_calls st1 = uuid_calls st2
  /\ map erase_root (roots st1) = map erase_root (roots st2)
  /\ map erase_storey (storey_entities st1)
     = map erase_storey (storey_entities st2)
  /\ map erase_element (elements st1) = map erase_element (elements st2)
  /\ map erase_aggregates (aggregates st1)
     = map erase_aggregates (aggregates st2)
  /\ map erase_contained (containments st1)
     = map erase_contained (containments st2)
  /\ map erase_material (material_associations st1)
     = map erase_material (material_associations st2).
Proof. unfold erase_file. intros H. injection H. intuition. Qed.

Lemma sim_ret {A : Type} (R : A -> A -> Prop) (a1 a2 : A) :
  R a1 a2 -> sim R (ret a1) (ret a2).
Proof. intros H st1 st2 Hst. cbn. now split. Qed.

Lemma sim_bind {A B : Type} (RA : A -> A -> Prop) (RB : B -> B -> Prop)
    (m1 m2 : M A) (f1 f2 : A -> M B) :
  sim RA m1 m2 ->
  (forall a1 a2, RA a1 a2 -> sim RB (f1 a1) (f2 a2)) ->
  sim RB (bind m1 f1) (bind m2 f2).
Proof.
  intros Hm Hf st1 st2 Hst. unfold bind.
  specialize (Hm st1 st2 Hst).
  destruct (m1 st1) as [[a1 s1]|e1], (m2 st2) as [[a2 s2]|e2];
    try contradiction; [|assumption].
  destruct Hm as [Ha Hs]. now apply Hf.
Qed.

Lemma sim_lift {A : Type} (R : A -> A -> Prop) (r1 r2 : Result A) :
  match r1, r2 with
  | Ok a1, Ok a2 => R a1 a2
  | Raise e1, Raise e2 => e1 = e2
  | _, _ => False
  end ->
  sim R (lift r1) (lift r2).
Proof.
  intros H st1 st2 Hst. unfold lift.
  destruct r1 as [a1|e1], r2 as [a2|e2]; try contradiction;
    [now split | assumption].
Qed.

Lemma sim_lift_raise {A : Type} (R : A -> A -> Prop) (e : Error) :
  sim R (lift (Raise e)) (lift (Raise e)).
Proof. now apply sim_lift. Qed.

Lemma sim_lift_eq {A : Type} (r : Result A) : sim eq (lift r) (lift r).
Proof. apply sim_lift. destruct r; reflexivity. Qed.

Lemma sim_mapM {A B : Type} (eA : A -> A) (eB : B -> B)
    (f1 f2 : A -> M B) (l1 l2 : list A) :
  same (map eA) l1 l2 ->
  (forall a1 a2, same eA a1 a2 -> sim (same eB) (f1 a1) (f2 a2)) ->
  sim (same (map eB)) (mapM f1 l1) (mapM f2 l2).
Proof.
  intros Hl Hf. revert l2 Hl.
  induction l1 as [|a1 l1 IH]; intros [|a2 l2] Hl; try discriminate Hl.
  - now apply sim_ret.
  - injection Hl as Ha Hl. cbn [mapM].
    apply sim_bind with (RA := same eB); [now apply Hf|].
    intros b1 b2 Hb.
    apply sim_bind with (RA := same (map eB)); [now apply IH|].
    intros bs1 bs2 Hbs. apply sim_ret.
    unfold same in *. cbn [map]. now rewrite Hb, Hbs.
Qed.

(** A loop over plain data, the same on both sides. *)
Lemma sim_mapM_eq {A B : Type} (eB : B -> B) (f1 f2 : A -> M B)
    (l : list A) :
  (forall a, sim (same eB) (f1 a) (f2 a)) ->
  sim (same (map eB)) (mapM f1 l) (mapM f2 l).
Proof.
  intros Hf. apply sim_mapM with (eA := fun a => a).
  - reflexivity.
  - intros a1 a2 Ha. unfold same in Ha. subst a2. apply Hf.
Qed.

(** *** Lists of the same shape *)

Lemma same_length {A : Type} (e : A -> A) (l1 l2 : list A) :
  same (map e) l1 l2 -> List.length l1 = List.length l2.
Proof.
  unfold same. intros H.
  now rewrite <- (length_map e l1), H, length_map.
Qed.

Lemma same_removelast {A : Type} (e : A -> A) (l1 l2 : list A) :
  same (map e) l1 l2 -> same (map e) (removelast l1) (removelast l2).
Proof.
  unfold same. intros H.
  rewrite !removelast_firstn_len, <- !firstn_map, H.
  now rewrite (same_length e l1 l2 H).
Qed.

Lemma same_enumerate {A : Type} (e : A -> A) (l1 l2 : list A) (k : nat) :
  same (map e) l1 l2 ->
  same (map (fun p => (fst p, e (snd p))))
       (enumerate_from k l1) (enumerate_from k l2).
Proof.
  unfold same. revert l2 k.
  induction l1 as [|a1 l1 IH]; intros [|a2 l2] k H; try discriminate H;
    [reflexivity|].
  injection H as Ha Hl. cbn [enumerate_from map fst snd].
  rewrite Ha. f_equal. now apply IH.
Qed.

Lemma same_index {A : Type} (e : A -> A) (l1 l2 : list A) (i : nat) :
  same (map e) l1 l2 ->
  sim (same e) (lift (index l1 i)) (lift (index l2 i)).
Proof.
  intros H. apply sim_lift. unfold index, same in *.
  assert (Hn : option_map e (nth_error l1 i) = option_map e (nth_error l2 i))
    by (rewrite <- !nth_error_map; now rewrite H).
  destruct (nth_error l1 i), (nth_error l2 i); try discriminate Hn;
    [now injection Hn | reflexivity].
Qed.

Lemma same_last_item {A : Type} (e : A -> A) (l1 l2 : list A) :
  same (map e) l1 l2 ->
  sim (same e) (lift (last_item l1)) (lift (last_item l2)).
Proof.
  intros H. apply sim_lift. unfold last_item, same in *.
  assert (Hr : map e (rev l1) = map e (rev l2))
    by (rewrite !map_rev; now rewrite H).
  destruct (rev l1), (rev l2); try discriminate Hr;
    [reflexivity | now injection Hr].
Qed.

Lemma same_concat {A : Type} (e : A -> A) (l1 l2 : list (list A)) :
  same (map (map e)) l1 l2 ->
  same (map e) (List.concat l1) (List.concat l2).
Proof.
  unfold same. intros H. now rewrite !concat_map, H.
Qed.

Lemma same_app {A : Type} (e : A -> A) (l1 l2 m1 m2 : list A) :
  same (map e) l1 l2 -> same (map e) m1 m2 ->
  same (map e) (l1 ++ m1) (l2 ++ m2).
Proof. unfold same. intros H1 H2. now rewrite !map_app, H1, H2. Qed.

Lemma same_elevation (s1 s2 : Storey) :
  same erase_storey s1 s2 -> Elevation s1 = Elevation s2.
Proof. unfold same, erase_storey. intros H. now injection H. Qed.

(** *** The operations of the file object *)

Ltac shape_eq Hst :=
  apply file_shape_inv in Hst;
  destruct Hst as (? & ? & ? & ? & ? & ? & ? & ?);
  unfold erase_file;
  cbn [next_handle uuid_calls roots storey_entities elements aggregates
       containments material_associations];
  rewrite ?map_app; cbn [map];
  f_equal; try assumption; try congruence;
  (f_equal; try assumption; try reflexivity;
   try (apply (f_equal2 cons); [|reflexivity])).

Section Primitives.

Variables env1 env2 : Env.

Lemma sim_create_guid :
  sim (fun _ _ => True) (create_guid env1) (create_guid env2).
Proof.
  intros st1 st2 Hst. unfold create_guid. split; [exact I|].
  apply file_shape_inv in Hst.
  destruct Hst as (? & ? & ? & ? & ? & ? & ? & ?).
  unfold erase_file; cbn. congruence.
Qed.

Lemma sim_createIfcRoot c g1 g2 name desc :
  sim (same erase_root) (createIfcRoot c g1 name desc)
                        (createIfcRoot c g2 name desc).
Proof.
  intros st1 st2 Hst. unfold createIfcRoot, same.
  assert (Hh : next_handle st1 = next_handle st2)
    by (now apply file_shape_inv in Hst).
  split.
  - unfold erase_root. cbn. now rewrite Hh.
  - shape_eq Hst; unfold erase_root. cbn; congruence.
Qed.

Lemma sim_createIfcBuildingStorey g1 g2 name desc placement elevation :
  sim (same erase_storey)
      (createIfcBuildingStorey g1 name desc placement elevation)
      (createIfcBuildingStorey g2 name desc placement elevation).
Proof.
  intros st1 st2 Hst. unfold createIfcBuildingStorey, same.
  assert (Hh : next_handle st1 = next_handle st2)
    by (now apply file_shape_inv in Hst).
  split.
  - unfold erase_storey. cbn. now rewrite Hh.
  - shape_eq Hst; unfold erase_storey; cbn; congruence.
Qed.

Lemma sim_createIfcElement c g1 g2 name desc placement shape_ pt oh :
  sim (same erase_element)
      (createIfcElement c g1 name desc placement shape_ pt oh)
      (createIfcElement c g2 name desc placement shape_ pt oh).
Proof.
  intros st1 st2 Hst. unfold createIfcElement, same.
  assert (Hh : next_handle st1 = next_handle st2)
    by (now apply file_shape_inv in Hst).
  split.
  - unfold erase_element. cbn. now rewrite Hh.
  - shape_eq Hst; unfold erase_element; cbn; congruence.
Qed.

Lemma sim_createIfcRelAggregates g1 g2 name relating1 relating2
    related1 related2 :
  relating1 = relating2 -> related1 = related2 ->
  sim eq (createIfcRelAggregates g1 name relating1 related1)
         (createIfcRelAggregates g2 name relating2 related2).
Proof.
  intros -> -> st1 st2 Hst. unfold createIfcRelAggregates.
  split; [reflexivity|]. shape_eq Hst.
Qed.

Lemma sim_createIfcRelContained g1 g2 name related1 related2 s1 s2 :
  same (map (option_map erase_element)) related1 related2 ->
  same erase_storey s1 s2 ->
  sim eq (createIfcRelContainedInSpatialStructure g1 name related1 s1)
         (createIfcRelContainedInSpatialStructure g2 name related2 s2).
Proof.
  unfold same. intros Hr Hs st1 st2 Hst.
  unfold createIfcRelContainedInSpatialStructure.
  split; [reflexivity|]. shape_eq Hst; unfold erase_contained; cbn; congruence.
Qed.

Lemma sim_createIfcRelAssociatesMaterial g1 g2 related1 related2 usage :
  same (map erase_element) related1 related2 ->
  sim eq (createIfcRelAssociatesMaterial g1 related1 usage)
         (createIfcRelAssociatesMaterial g2 related2 usage).
Proof.
  unfold same. intros Hr st1 st2 Hst.
  unfold createIfcRelAssociatesMaterial.
  split; [reflexivity|]. shape_eq Hst; unfold erase_material; cbn; congruence.
Qed.

End Primitives.

(** *** The generators *)

Lemma same_r_handle (r1 r2 : Root) :
  same erase_root r1 r2 -> r_handle r1 = r_handle r2.
Proof. unfold same, erase_root. intros H. now injection H. Qed.

Lemma same_s_handles (l1 l2 : list Storey) :
  same (map erase_storey) l1 l2 -> map s_handle l1 = map s_handle l2.
Proof.
  unfold same. intros H.
  assert (E : forall l, map s_handle l = map s_handle (map erase_storey l))
    by (intros l; now rewrite map_map).
  now rewrite (E l1), (E l2), H.
Qed.

Lemma map_map_Some {A : Type} (e : A -> A) (l : list A) :
  map (option_map e) (map Some l) = map Some (map e l).
Proof. now rewrite !map_map. Qed.

(** Equations between erased lists. *)
Ltac same_solve :=
  unfold same in *;
  rewrite ?map_app, ?concat_map, ?map_map_Some, ?map_app;
  cbn [map option_map]; congruence.

Create HintDb simdb.

#[local] Hint Resolve sim_create_guid sim_createIfcRoot
  sim_createIfcBuildingStorey sim_createIfcElement sim_lift_raise
  sim_lift_eq
  same_index same_last_item : simdb.

#[local] Hint Extern 1 (sim _ (createIfcRelAggregates _ _ _ _)
                              (createIfcRelAggregates _ _ _ _)) =>
  apply sim_createIfcRelAggregates;
  [ solve [auto using same_r_handle]
  | first [ solve [auto using same_s_handles]
          | f_equal; solve [auto using same_r_handle] ] ]
  : simdb.

#[local] Hint Extern 1 (sim _
                          (createIfcRelContainedInSpatialStructure _ _ _ _)
                          (createIfcRelContainedInSpatialStructure _ _ _ _)) =>
  apply sim_createIfcRelContained;
  [ same_solve | assumption ] : simdb.

#[local] Hint Extern 1 (sim _ (createIfcRelAssociatesMaterial _ _ _)
                              (createIfcRelAssociatesMaterial _ _ _)) =>
  apply sim_createIfcRelAssociatesMaterial; same_solve : simdb.

(** Use what is known of two related values. *)
Ltac learn H :=
  cbv beta in H;
  lazymatch type of H with
  | True => clear H
  | @eq _ ?a ?b => first [subst b | subst a | idtac]
  | same erase_storey ?s1 ?s2 =>
      let E := fresh "E" in
      pose proof (same_elevation s1 s2 H) as E; try rewrite E
  | _ => idtac
  end.

(** One step through a pair of computations of the same code. *)
Ltac sim_step :=
  cbv zeta;
  lazymatch goal with
  | |- sim _ (ret _) (ret _) =>
      apply sim_ret; try same_solve
  | |- sim _ (bind _ _) (bind _ _) =>
      eapply sim_bind;
      [ solve [eauto 3 with simdb]
      | let a := fresh "a" in let b := fresh "b" in let H := fresh "H" in
        intros a b H; learn H ]
  | |- sim _ (if ?c then _ else _) (if ?c then _ else _) => destruct c
  | |- sim _ _ _ => solve [eauto 3 with simdb]
  end.

Section Generators.

Variables env1 env2 : Env.
Variable P : Parameters.

Lemma sim_create_ifc_model :
  sim (same erase_root) (create_ifc_model env1) (create_ifc_model env2).
Proof. unfold create_ifc_model. repeat sim_step. Qed.

Lemma sim_create_site (p1 p2 : Root) :
  same erase_root p1 p2 ->
  sim (same erase_root) (create_site env1 p1) (create_site env2 p2).
Proof. intros Hp. unfold create_site. repeat sim_step. Qed.

Lemma sim_create_building (s1 s2 : Root) :
  same erase_root s1 s2 ->
  sim (same erase_root) (create_building env1 s1) (create_building env2 s2).
Proof. intros Hp. unfold create_building. repeat sim_step. Qed.

Lemma sim_create_storeys (b1 b2 : Root) :
  same erase_root b1 b2 ->
  sim (same (map erase_storey)) (create_storeys env1 P b1)
                                (create_storeys env2 P b2).
Proof.
  intros Hb. unfold create_storeys.
  eapply sim_bind.
  { apply sim_mapM_eq. intros [i [name elevation]]. repeat sim_step. }
  intros l1 l2 Hl. repeat sim_step.
Qed.

(** A loop over [enumerate] of two storey lists of the same shape. *)
Lemma sim_enumerate_loop {B : Type} (eB : B -> B)
    (f1 f2 : nat -> Storey -> M B) (l1 l2 : list Storey) :
  same (map erase_storey) l1 l2 ->
  (forall i s1 s2, same erase_storey s1 s2 ->
                   sim (same eB) (f1 i s1) (f2 i s2)) ->
  sim (same (map eB))
      (mapM (fun '(i, storey) => f1 i storey) (enumerate l1))
      (mapM (fun '(i, storey) => f2 i storey) (enumerate l2)).
Proof.
  intros Hl Hf.
  apply sim_mapM with (eA := fun p => (fst p, erase_storey (snd p))).
  - now apply same_enumerate.
  - intros [i1 s1] [i2 s2] H. unfold same in H. cbn [fst snd] in H.
    apply pair_equal_spec in H as [-> Hs]. cbv beta iota. apply Hf. exact Hs.
Qed.

Lemma sim_create_wall name start_point end_point thickness height usage :
  sim (same (option_map erase_element))
      (create_wall env1 name start_point end_point thickness height usage)
      (create_wall env2 name start_point end_point thickness height usage).
Proof.
  unfold create_wall.
  destruct start_point as [[sx sy] sz], end_point as [[ex ey] ez].
  repeat sim_step.
Qed.

#[local] Hint Resolve sim_create_wall : simdb.

Lemma sim_create_storey_walls i (s1 s2 : Storey) :
  same erase_storey s1 s2 ->
  sim (same (map (option_map erase_element)))
      (create_storey_walls env1 P i s1) (create_storey_walls env2 P i s2).
Proof.
  intros Hs. unfold create_storey_walls.
  rewrite (same_elevation s1 s2 Hs).
  sim_step. do 4 sim_step.
  eapply sim_bind with (RA := same (map (option_map erase_element))).
  { sim_step; [|solve [sim_step]].
    sim_step. eapply sim_bind.
    { apply sim_mapM_eq with (eB := option_map erase_element).
      intros j. apply sim_create_wall. }
    intros l1 l2 Hl. repeat sim_step. }
  intros l1 l2 Hl. repeat sim_step.
Qed.

Lemma sim_create_walls (l1 l2 : list Storey) :
  same (map erase_storey) l1 l2 ->
  sim (same (map (option_map erase_element)))
      (create_walls env1 P l1) (create_walls env2 P l2).
Proof.
  intros Hl. unfold create_walls.
  eapply sim_bind.
  { apply sim_enumerate_loop
      with (eB := map (option_map erase_element))
           (f1 := create_storey_walls env1 P)
           (f2 := create_storey_walls env2 P).
    - now apply same_removelast.
    - intros i s1 s2. apply sim_create_storey_walls. }
  intros p1 p2 Hp. apply sim_ret. now apply same_concat.
Qed.

Lemma sim_create_storey_slab (l1 l2 : list Storey) i (s1 s2 : Storey) :
  same (map erase_storey) l1 l2 ->
  same erase_storey s1 s2 ->
  sim (same erase_element)
      (create_storey_slab env1 P l1 i s1) (create_storey_slab env2 P l2 i s2).
Proof.
  intros Hl Hs. unfold create_storey_slab, slab_name, slab_type, below_roof.
  rewrite (same_length erase_storey l1 l2 Hl).
  repeat sim_step.
Qed.

Lemma sim_create_slabs (l1 l2 : list Storey) :
  same (map erase_storey) l1 l2 ->
  sim (same (map erase_element))
      (create_slabs env1 P l1) (create_slabs env2 P l2).
Proof.
  intros Hl. unfold create_slabs.
  eapply sim_bind.
  { apply sim_enumerate_loop
      with (eB := erase_element)
           (f1 := create_storey_slab env1 P l1)
           (f2 := create_storey_slab env2 P l2).
    - now apply same_removelast.
    - intros i s1 s2. now apply sim_create_storey_slab. }
  intros p1 p2 Hp. repeat sim_step.
Qed.

Lemma sim_create_door name position width height :
  sim (same erase_element)
      (create_door env1 P name position width height)
      (create_door env2 P name position width height).
Proof. unfold create_door. repeat sim_step. Qed.

#[local] Hint Resolve sim_create_door : simdb.

Lemma sim_create_storey_doors w d i (s1 s2 : Storey) :
  same erase_storey s1 s2 ->
  sim (same (map erase_element))
      (create_storey_doors env1 P w d i s1)
      (create_storey_doors env2 P w d i s2).
Proof.
  intros Hs. unfold create_storey_doors.
  rewrite (same_elevation s1 s2 Hs).
  sim_step; [solve [sim_step]|].
  eapply sim_bind.
  { apply sim_mapM_eq with (eB := erase_element).
    intros j. apply sim_create_door. }
  intros l1 l2 Hl. repeat sim_step.
Qed.

Lemma sim_create_doors (l1 l2 : list Storey) :
  same (map erase_storey) l1 l2 ->
  sim (same (map erase_element))
      (create_doors env1 P l1) (create_doors env2 P l2).
Proof.
  intros Hl. unfold create_doors.
  do 5 sim_step.
  eapply sim_bind.
  { apply sim_enumerate_loop
      with (eB := map erase_element)
           (f1 := create_storey_doors env1 P _ _)
           (f2 := create_storey_doors env2 P _ _).
    - now apply same_removelast.
    - intros i s1 s2. apply sim_create_storey_doors. }
  intros p1 p2 Hp. apply sim_ret.
  apply same_concat in Hp. unfold same in *. cbn [map]. congruence.
Qed.

Lemma sim_create_window name position width height :
  sim (same erase_element)
      (create_window env1 P name position width height)
      (create_window env2 P name position width height).
Proof. unfold create_window. repeat sim_step. Qed.

Lemma sim_create_facade_windows facade y L w h sill N i elev :
  sim (same (map erase_element))
      (create_facade_windows env1 P facade y L w h sill N i elev)
      (create_facade_windows env2 P facade y L w h sill N i elev).
Proof.
  unfold create_facade_windows.
  apply sim_mapM_eq with (eB := erase_element).
  intros j. apply sim_create_window.
Qed.

#[local] Hint Resolve sim_create_facade_windows : simdb.

Lemma sim_create_storey_windows i (s1 s2 : Storey) :
  same erase_storey s1 s2 ->
  sim (same (map erase_element))
      (create_storey_windows env1 P i s1) (create_storey_windows env2 P i s2).
Proof.
  intros Hs. unfold create_storey_windows.
  rewrite (same_elevation s1 s2 Hs).
  repeat sim_step.
Qed.

Lemma sim_create_windows (l1 l2 : list Storey) :
  same (map erase_storey) l1 l2 ->
  sim (same (map erase_element))
      (create_windows env1 P l1) (create_windows env2 P l2).
Proof.
  intros Hl. unfold create_windows.
  eapply sim_bind.
  { apply sim_enumerate_loop
      with (eB := map erase_element)
           (f1 := create_storey_windows env1 P)
           (f2 := create_storey_windows env2 P).
    - now apply same_removelast.
    - intros i s1 s2. apply sim_create_storey_windows. }
  intros p1 p2 Hp. apply sim_ret. now apply same_concat.
Qed.

Lemma sim_create_stoop (l1 l2 : list Storey) :
  same (map erase_storey) l1 l2 ->
  sim (same erase_element) (create_stoop env1 P l1) (create_stoop env2 P l2).
Proof. intros Hl. unfold create_stoop. repeat sim_step. Qed.

Lemma sim_create_fixture name position width depth height fixture_type :
  sim (same erase_element)
      (create_fixture env1 name position width depth height fixture_type)
      (create_fixture env2 name position width depth height fixture_type).
Proof. unfold create_fixture. repeat sim_step. Qed.

#[local] Hint Resolve sim_create_fixture : simdb.

Lemma sim_create_bathroom (l1 l2 : list Storey) w d i :
  same (map erase_storey) l1 l2 ->
  sim (same (map erase_element))
      (create_bathroom env1 l1 w d i) (create_bathroom env2 l2 w d i).
Proof. intros Hl. unfold create_bathroom. repeat sim_step. Qed.

Lemma sim_create_fixtures (l1 l2 : list Storey) :
  same (map erase_storey) l1 l2 ->
  sim (same (map erase_element))
      (create_fixtures env1 P l1) (create_fixtures env2 P l2).
Proof.
  intros Hl. unfold create_fixtures.
  do 2 sim_step.
  eapply sim_bind.
  { apply sim_mapM_eq with (eB := map erase_element).
    intros i. now apply sim_create_bathroom. }
  intros p1 p2 Hp. do 3 sim_step. apply sim_ret.
  apply same_concat in Hp. unfold same in *. cbn [map]. congruence.
Qed.

Lemma sim_create_mep_element name position width depth height element_type :
  sim (same erase_element)
      (create_mep_element env1 name position width depth height element_type)
      (create_mep_element env2 name position width depth height element_type).
Proof.
  unfold create_mep_element.
  eapply sim_bind with (RA := same erase_element).
  { repeat sim_step. }
  intros e1 e2 He. repeat sim_step.
Qed.

#[local] Hint Resolve sim_create_mep_element : simdb.

Lemma sim_create_mep_elements (l1 l2 : list Storey) :
  same (map erase_storey) l1 l2 ->
  sim (same (map erase_element))
      (create_mep_elements env1 P l1) (create_mep_elements env2 P l2).
Proof. intros Hl. unfold create_mep_elements. repeat sim_step. Qed.

Lemma sim_create_brownstone_ifc :
  sim (same erase_build)
      (create_brownstone_ifc env1 P) (create_brownstone_ifc env2 P).
Proof.
  unfold create_brownstone_ifc.
  eapply sim_bind; [apply sim_create_ifc_model|]. intros p1 p2 Hp.
  eapply sim_bind; [now apply sim_create_site|]. intros s1 s2 Hs.
  eapply sim_bind; [now apply sim_create_building|]. intros b1 b2 Hb.
  eapply sim_bind; [now apply sim_create_storeys|]. intros l1 l2 Hl.
  eapply sim_bind; [now apply sim_create_walls|]. intros w1 w2 Hw.
  eapply sim_bind; [now apply sim_create_slabs|]. intros sl1 sl2 Hsl.
  eapply sim_bind; [now apply sim_create_windows|]. intros wi1 wi2 Hwi.
  eapply sim_bind; [now apply sim_create_doors|]. intros d1 d2 Hd.
  eapply sim_bind; [now apply sim_create_stoop|]. intros t1 t2 Ht.
  eapply sim_bind; [now apply sim_create_fixtures|]. intros f1 f2 Hf.
  eapply sim_bind; [now apply sim_create_mep_elements|]. intros m1 m2 Hm.
  apply sim_ret. unfold same, erase_build in *. cbn. congruence.
Qed.

End Generators.

End Sim.

(* ================================================================== *)
(** ** Complete runs *)

Lemma element_view_erase (e : Element) :
  element_view (erase_element e) = element_view e.
Proof. reflexivity. Qed.

Lemma containment_view_erase (r : RelContainedInSpatialStructure) :
  containment_view (erase_contained r) = containment_view r.
Proof.
  unfold containment_view, erase_contained. cbn.
  rewrite map_map. f_equal. apply map_ext. now intros [e|].
Qed.

Lemma views_of_same_shape (f1 f2 : IfcFile) :
  erase_file f1 = erase_file f2 ->
  map element_view (elements f1) = map element_view (elements f2)
  /\ map containment_view (containments f1)
     = map containment_view (containments f2).
Proof.
  intros H. apply Sim.file_shape_inv in H.
  destruct H as (_ & _ & _ & _ & He & _ & Hc & _). split.
  - transitivity (map element_view (map erase_element (elements f1))).
    + rewrite map_map. apply map_ext. intros e. symmetry.
      apply element_view_erase.
    + rewrite He, map_map. apply map_ext. apply element_view_erase.
  - transitivity (map containment_view
                      (map erase_contained (containments f1))).
    + rewrite map_map. apply map_ext. intros r. symmetry.
      apply containment_view_erase.
    + rewrite Hc, map_map. apply map_ext. apply containment_view_erase.
Qed.


Lemma holds_after_inv (Q : Build -> IfcFile -> Prop)
    (r : Result (Build * IfcFile)) :
  holds_after Q r -> exists b f, r = Ok (b, f) /\ Q b f.
Proof.
  destruct r as [[b f]|e]; cbn; [|contradiction].
  intros H. now exists b, f.
Qed.


(* ================================================================== *)
(** ** Doors *)

Section DoorFacts.

Variable env : Env.
Variable P : Parameters.

(** A door is one element, placed without rotation at the position
    asked for, swept along Y by the wall thickness. *)
Lemma create_door_ok (name : string) (position : Point3)
    (width height : float) st :
  exists door st',
    create_door env P name position width height st = Ok (door, st')
    /\ (handle door = next_handle st
        /\ class door = IfcDoor
        /\ Name door = name
        /\ ObjectPlacement door = axis_aligned position
        /\ Representation door
           = mkSolid (rectangle width height) Y_AXIS
                     (convert_to_meter (WALL_THICKNESS P))
        /\ OverallHeight door = Some height)
    /\ (next_handle st' = S (next_handle st)
        /\ elements st' = elements st ++ [door]
        /\ containments st' = containments st
        /\ material_associations st' = material_associations st).
Proof.
  do 2 eexists. split; [reflexivity|]. cbn. repeat split.
Qed.

(** One round of the door loop: nothing in the basement, two doors on
    the corridor line elsewhere, registered in the storey. *)
Lemma create_storey_doors_ok (i : nat) (storey : Storey) st :
  exists doors st' rels,
    create_storey_doors env P (convert_to_meter (BUILDING_WIDTH P))
                        (convert_to_meter (BUILDING_DEPTH P)) i storey st
    = Ok (doors, st')
    /\ map location_of doors
       = (if (i =? 0)%nat then []
          else interior_door_locations P (Elevation storey))
    /\ Forall (fun e => class e = IfcDoor
                        /\ Polyline (Representation e)
                           = rectangle (convert_to_meter 3.0)
                                       (convert_to_meter 7.0)) doors
    /\ elements st' = elements st ++ doors
    /\ containments st' = containments st ++ rels
    /\ map relation_view rels
       = (if (i =? 0)%nat then [] else [(map Some doors, storey)])
    /\ material_associations st' = material_associations st.
Proof.
  unfold create_storey_doors. destruct (i =? 0)%nat.
  - exists [], st, []. rewrite !app_nil_r. repeat split. constructor.
  - do 3 eexists. split; [reflexivity|].
    cbn. rewrite <- !app_assoc. repeat split.
    repeat constructor.
Qed.

(** The door loop from index [k]. *)
Lemma door_loop_ok (l : list Storey) (k : nat) st :
  exists per_storey st' rels,
    mapM (fun '(i, storey) =>
            create_storey_doors env P (convert_to_meter (BUILDING_WIDTH P))
                                (convert_to_meter (BUILDING_DEPTH P))
                                i storey)
         (enumerate_from k l) st = Ok (per_storey, st')
    /\ map (map location_of) per_storey
       = map (fun '(i, storey) =>
                if (i =? 0)%nat then []
                else interior_door_locations P (Elevation storey))
             (enumerate_from k l)
    /\ Forall (Forall (fun e => class e = IfcDoor
                                /\ Polyline (Representation e)
                                   = rectangle (convert_to_meter 3.0)
                                               (convert_to_meter 7.0)))
              per_storey
    /\ elements st' = elements st ++ List.concat per_storey
    /\ containments st' = containments st ++ rels
    /\ map relation_view rels
       = door_relations (enumerate_from k l) per_storey
    /\ material_associations st' = material_associations st.
Proof.
  revert k st. induction l as [|storey l IH]; intros k st.
  - exists [], st, []. cbn. rewrite !app_nil_r. repeat split. constructor.
  - cbn [enumerate_from mapM].
    destruct (create_storey_doors_ok k storey st)
      as (ds & st1 & r1 & Hrun & Hl & Hc & He & Hco & Hr & Hm).
    destruct (IH (S k) st1)
      as (per & st' & rels & Hrun' & Hl' & Hc' & He' & Hco' & Hr' & Hm').
    exists (ds :: per), st', (r1 ++ rels).
    rewrite (bind_ok _ Hrun), (bind_ok _ Hrun').
    split; [reflexivity|].
    cbn [map List.concat combine door_relations flat_map].
    fold (door_relations (enumerate_from (S k) l) per).
    rewrite Hl, Hl', He', He, Hco', Hco, Hm', Hm, map_app, Hr, Hr'.
    rewrite <- !app_assoc.
    repeat split. now constructor.
Qed.

End DoorFacts.

Lemma door_count (P : Parameters) (l : list Storey) (k : nat) :
  1 <= k ->
  list_sum
    (map (@List.length Point3)
         (map (fun '(i, storey) =>
                 if (i =? 0)%nat then []
                 else interior_door_locations P (Elevation storey))
              (enumerate_from k l)))
  = 2 * List.length l.
Proof.
  revert k. induction l as [|s l IH]; intros k Hk; [reflexivity|].
  cbn [enumerate_from map List.length].
  match goal with |- list_sum (?x :: ?r) = _ =>
    change (list_sum (x :: r)) with (x + list_sum r) end.
  rewrite IH by lia.
  destruct (Nat.eqb_spec k 0) as [E|E]; [lia|]. cbn [List.length interior_door_locations]. lia.
Qed.

(** X1.  On a stack of at least two storeys [create_doors] makes one
    front door, 4 ft by 8 ft, centred on the front facade at the
    elevation of the second storey of the stack and registered there, and
    for every storey but the first and the last two interior doors,
    3 ft by 7 ft, on the corridor line at one and two thirds of the
    width, registered in their storey: [1 + 2 * (len(storeys) - 2)]
    doors. *)
Theorem create_doors_front_and_corridor :
  forall env P (s0 s1 : Storey) (rest : list Storey) st,
    let storeys := s0 :: s1 :: rest in
    let w := convert_to_meter (BUILDING_WIDTH P) in
    exists front interior st' rc rels,
      create_doors env P storeys st = Ok (front :: List.concat interior, st')
      /\ (class front = IfcDoor
          /\ Name front = "Front Door"
          /\ location_of front
             = (w / 2 - convert_to_meter 4.0 / 2, 0, Elevation s1)%float
          /\ Polyline (Representation front)
             = rectangle (convert_to_meter 4.0) (convert_to_meter 8.0))
      /\ map (map location_of) interior
         = map (fun '(i, storey) =>
                  if (i =? 0)%nat then []
                  else interior_door_locations P (Elevation storey))
               (enumerate (removelast storeys))
      /\ Forall (Forall (fun e => class e = IfcDoor
                                  /\ Polyline (Representation e)
                                     = rectangle (convert_to_meter 3.0)
                                                 (convert_to_meter 7.0)))
                interior
      /\ elements st' = elements st ++ front :: List.concat interior
      /\ containments st' = containments st ++ rc :: rels
      /\ relation_view rc = ([Some front], s1)
      /\ map relation_view rels
         = door_relations (enumerate (removelast storeys)) interior
      /\ List.length (front :: List.concat interior)
         = 1 + 2 * (List.length storeys - 2).
Proof.
  intros env P s0 s1 rest st storeys w.
  destruct (create_door_ok env P "Front Door"
              (w / 2 - convert_to_meter 4.0 / 2, 0, Elevation s1)%float
              (convert_to_meter 4.0) (convert_to_meter 8.0) st)
    as (front & st1 & Hrun & (_ & Hc & Hn & Hp & Hr & _)
        & (_ & He & Hco & Hm)).
  remember (create_doors env P storeys st) as X eqn:HX.
  unfold create_doors, storeys in HX. cbn [index nth_error] in HX.
  rewrite bind_lift in HX. fold w in HX. rewrite (bind_ok _ Hrun) in HX.
  unfold bind at 1 2 3 in HX.
  cbn [create_guid lift createIfcRelContainedInSpatialStructure] in HX.
  unfold enumerate in HX.
  cbn [next_handle uuid_calls roots storey_entities elements aggregates
       containments material_associations] in HX.
  match type of HX with context [bind (mapM ?f ?l) ?k ?s] =>
    destruct (door_loop_ok env P (removelast (s0 :: s1 :: rest)) 0 s)
      as (per & st' & rels & Hrun' & Hl & Hcl & He' & Hco' & Hr' & Hm')
  end.
  rewrite (bind_ok _ Hrun') in HX. cbn [ret] in HX.
  exists front, per, st'. eexists. exists rels.
  split; [exact HX|].
  split.
  { repeat split; try assumption.
    - unfold location_of. now rewrite Hp.
    - now rewrite Hr. }
  split; [exact Hl|]. split; [exact Hcl|].
  cbn [elements containments] in He', Hco'.
  split; [rewrite He', He, <- app_assoc; reflexivity|].
  split; [rewrite Hco', Hco, <- app_assoc; reflexivity|].
  split; [reflexivity|]. split; [exact Hr'|].
  cbn [List.length].
  rewrite (length_concat_views _ _ _ Hl).
  unfold storeys, enumerate.
  change (removelast (s0 :: s1 :: rest)) with (s0 :: removelast (s1 :: rest)).
  cbn [enumerate_from map Nat.eqb List.length].
  match goal with |- context [list_sum (?x :: ?r)] =>
    change (list_sum (x :: r)) with (x + list_sum r) end.
  rewrite door_count by lia. rewrite length_removelast'.
  cbn [List.length]. lia.
Qed.

(** X2.  [create_doors] needs the second storey of the stack: on an
    empty stack or a single storey it raises [IndexError]. *)
Theorem create_doors_needs_two_storeys :
  forall env P st,
    create_doors env P [] st = Raise IndexError
    /\ forall s, create_doors env P [s] st = Raise IndexError.
Proof. intros env P st. split; [|intros s]; reflexivity. Qed.

(* ================================================================== *)
(** ** What a generator adds to the file *)

Lemma adds_refl (st : IfcFile) : adds st st [] [] [].
Proof.
  unfold adds. rewrite !app_nil_r. cbn. rewrite Nat.add_0_r.
  repeat split.
Qed.

Lemma adds_trans (st st1 st2 : IfcFile) E1 R1 M1 E2 R2 M2 :
  adds st st1 E1 R1 M1 -> adds st1 st2 E2 R2 M2 ->
  adds st st2 (E1 ++ E2) (R1 ++ R2) (M1 ++ M2).
Proof.
  unfold adds.
  intros (He1 & Hc1 & Hm1 & Hn1 & Hh1 & Hr1 & Hs1 & Ha1)
         (He2 & Hc2 & Hm2 & Hn2 & Hh2 & Hr2 & Hs2 & Ha2).
  rewrite He2, Hc2, Hm2, Hn2, Hr2, Hs2, Ha2, He1, Hc1, Hm1, Hn1.
  rewrite <- !app_assoc, length_app, map_app, seq_app, Hh1, Hh2, Hn1.
  repeat split; try assumption. lia.
Qed.


(** Evaluating a short run of the generator primitives. *)
Ltac run_primitives :=
  lazy beta iota zeta
       delta [create_stoop create_fixture create_mep_element bind ret lift
              index nth_error create_guid createIfcElement
              createIfcRelAssociatesMaterial
              createIfcRelContainedInSpatialStructure];
  reflexivity.

(** Drawing an identifier and registering elements in a storey. *)
Lemma register_adds (env : Env) (name : string)
    (related : list (option Element)) (storey : Storey) st :
  exists st' r,
    (g <- create_guid env ;;
     createIfcRelContainedInSpatialStructure g name related storey) st
    = Ok (tt, st')
    /\ adds st st' [] [r] []
    /\ relation_view r = (related, storey).
Proof.
  do 2 eexists. split; [run_primitives|].
  unfold adds. cbn. rewrite !app_nil_r, Nat.add_0_r. repeat split.
Qed.


Section FixtureFacts.

Variable env : Env.
Variable P : Parameters.

(** A fixture is one sanitary terminal with its material: "Porcelain"
    for a sink, "Ceramic" otherwise. *)
Lemma create_fixture_ok (name : string) (position : Point3)
    (width depth height : float) (fixture_type : string) st :
  exists fixture st' m,
    create_fixture env name position width depth height fixture_type st
    = Ok (fixture, st')
    /\ (class fixture = IfcSanitaryTerminal
        /\ fixture_view fixture = (name, Some fixture_type, position)
        /\ Representation fixture
           = mkSolid (rectangle width depth) Z_AXIS height)
    /\ adds st st' [fixture] [] [m]
    /\ material_view m
       = ([fixture],
          mkUsage (if (fixture_type =? "SINK")%string
                   then "Porcelain" else "Ceramic") 0.05).
Proof.
  do 3 eexists. split; [run_primitives|].
  unfold adds. cbn. rewrite !app_nil_r, Nat.add_1_r. repeat split.
Qed.

(** One round of the bathroom loop. *)
Lemma create_bathroom_ok (storeys : list Storey) (i : nat)
    (storey : Storey) st :
  nth_error storeys i = Some storey ->
  exists fixtures st' r mats,
    create_bathroom env storeys (convert_to_meter (BUILDING_WIDTH P))
                    (convert_to_meter (BUILDING_DEPTH P)) i st
    = Ok (fixtures, st')
    /\ Forall (fun e => class e = IfcSanitaryTerminal) fixtures
    /\ map fixture_view fixtures = bathroom_view P i storey
    /\ adds st st' fixtures [r] mats
    /\ relation_view r = (map Some fixtures, storey)
    /\ map material_view mats
       = map (fun e => ([e],
                        mkUsage (fixture_material (PredefinedType e)) 0.05))
             fixtures.
Proof.
  intros Hi.
  remember (create_bathroom env storeys (convert_to_meter (BUILDING_WIDTH P))
              (convert_to_meter (BUILDING_DEPTH P)) i st) as X eqn:HX.
  unfold create_bathroom, index in HX. rewrite Hi, bind_lift in HX.
  match type of HX with context [bind (create_fixture ?e ?n ?p ?w ?d ?h ?t) _ ?s] =>
    destruct (create_fixture_ok n p w d h t s)
      as (toilet & st1 & m1 & R1 & (C1 & V1 & _) & A1 & M1)
  end.
  rewrite (bind_ok _ R1) in HX.
  match type of HX with context [bind (create_fixture ?e ?n ?p ?w ?d ?h ?t) _ ?s] =>
    destruct (create_fixture_ok n p w d h t s)
      as (sink & st2 & m2 & R2 & (C2 & V2 & _) & A2 & M2)
  end.
  rewrite (bind_ok _ R2) in HX.
  destruct (register_adds env ("Storey " ++ str i ++ " Fixtures")%string
              [Some toilet; Some sink] storey st2)
    as (st3 & r & R3 & A3 & V3).
  rewrite <- bind_assoc, (bind_ok _ R3) in HX. cbn [ret] in HX.
  exists [toilet; sink], st3, r, [m1; m2].
  split; [exact HX|].
  split; [repeat constructor; assumption|].
  split; [cbn [map bathroom_view]; rewrite V1, V2; reflexivity|].
  split.
  { pose proof (adds_trans _ _ _ _ _ _ _ _ _
                  (adds_trans _ _ _ _ _ _ _ _ _ A1 A2) A3) as A.
    exact A. }
  split; [exact V3|].
  cbn [map]. rewrite M1, M2.
  assert (T1 : PredefinedType toilet = Some "WCCISTERN")
    by (unfold fixture_view in V1; congruence).
  assert (T2 : PredefinedType sink = Some "SINK")
    by (unfold fixture_view in V2; congruence).
  rewrite T1, T2. reflexivity.
Qed.

End FixtureFacts.




(* ================================================================== *)
(** ** Mechanical, electrical and plumbing equipment *)

(** X6.  [create_mep_element] knows three element types.  For any other
    type no branch binds the element and the call raises
    [UnboundLocalError] instead of returning. *)
Theorem create_mep_element_unknown_type :
  forall env name position width depth height (element_type : string) st,
    element_type <> "AIRHANDLER" ->
    element_type <> "SWITCHBOARD" ->
    element_type <> "WATERHEATER" ->
    create_mep_element env name position width depth height element_type st
    = Raise UnboundLocalError.
Proof.
  intros env name position width depth height element_type st H1 H2 H3.
  apply String.eqb_neq in H1, H2, H3.
  unfold create_mep_element. rewrite H1, H2, H3. reflexivity.
Qed.

Lemma create_mep_element_unknown_type_witness :
  create_mep_element numbered "Boiler" (0, 0, 0)%float 1 1 1 "BOILER"
                     empty_file
  = Raise UnboundLocalError.
Proof.
  apply create_mep_element_unknown_type; discriminate.
Defined.

(** One piece of equipment of a known type, with its "Metal" layer. *)
Lemma create_mep_element_ok (env : Env) (name : string) (position : Point3)
    (width depth height : float) (element_type : string) st :
  element_type = "AIRHANDLER" \/ element_type = "SWITCHBOARD"
  \/ element_type = "WATERHEATER" ->
  exists element st' m,
    create_mep_element env name position width depth height element_type st
    = Ok (element, st')
    /\ mep_view element
       = (if (element_type =? "AIRHANDLER")%string then IfcUnitaryEquipment
          else if (element_type =? "SWITCHBOARD")%string
               then IfcElectricDistributionBoard
               else IfcFlowTerminal,
          name,
          if (element_type =? "WATERHEATER")%string
          then None else Some element_type,
          position,
          mkSolid (rectangle width depth) Z_AXIS height)
    /\ adds st st' [element] [] [m]
    /\ material_view m = ([element], mkUsage "Metal" 0.05).
Proof.
  intros [-> | [-> | ->]].
  all: do 3 eexists; split; [run_primitives|].
  all: unfold adds; cbn; rewrite !app_nil_r, Nat.add_1_r; repeat split.
Qed.

